(** * bfcl_eval: the session runner and the backend registry

    A shallow embedding of
      - [bfcl_eval/constants/executable_backend_config.py] (the registry), and
      - [bfcl_eval/runner.py] (the line-oriented request loop),
    followed by the properties of the two that the specification states.

    Conventions of the embedding.
      - A Python [str] is a [string]; a character stands for a code point,
        so the 256 characters of [ascii] cover U+0000 to U+00FF.
      - A Python [dict] with string keys that the code builds or receives
        is an association list in insertion order ([dict]); the module
        namespace returned by [globals()] is a [gmap string Obj].
      - The code raises and catches exceptions: a computation is a function
        from the process state to an outcome ([Return] or [Raise]) and the
        next state.  Only subclasses of [Exception] are modelled; an
        interrupt or [SystemExit] is the external signal the specification
        sets apart.
      - The values exchanged with the collaborators are JSON values, so
        that [json.dumps(response)] always gives a line; the output of
        [main] is recorded as the list of the responses written.
      - The two collaborators are reached as the code reaches them, by a
        lookup of their names in the module namespace at each call: a
        reset can delete these two names.  No reset can delete another
        name that the code uses ([HANDLERS], [json], [sys] and the
        handlers' own names start with no prefix a reset derives), and
        those are referred to directly. *)

From stdpp Require Import gmap strings list fin_maps pretty.

Local Open Scope string_scope.
Local Open Scope list_scope.
Set Warnings "-register-all".

(** ** Values *)

(** What [json.loads] produces, and what the collaborators take and give
    back.  A float is carried by its [repr], which determines it. *)
Inductive pyval : Type :=
  | PNone
  | PBool (b : bool)
  | PInt (z : Z)
  | PFloat (r : string)
  | PStr (s : string)
  | PList (l : list pyval)
  | PDict (d : list (string * pyval)).

Abbreviation dict := (list (string * pyval)).

(** [d.get(key)]: [None] when the key is absent. *)
Fixpoint dict_get (d : dict) (key : string) : option pyval :=
  match d with
  | [] => None
  | (k, v) :: d' => if decide (k = key) then Some v else dict_get d' key
  end.

(** [d.get(key, default)]. *)
Definition dict_get_default (d : dict) (key : string) (default : pyval) : pyval :=
  match dict_get d key with
  | Some v => v
  | None => default
  end.

(** [d[key] = v]: the value is replaced in place when the key is there,
    the item is added at the end otherwise. *)
Fixpoint dict_set (d : dict) (key : string) (v : pyval) : dict :=
  match d with
  | [] => [(key, v)]
  | (k, w) :: d' =>
      if decide (k = key) then (k, v) :: d' else (k, w) :: dict_set d' key v
  end.

(** [type(v).__name__]. *)
Definition type_name (v : pyval) : string :=
  match v with
  | PNone => "NoneType"
  | PBool _ => "bool"
  | PInt _ => "int"
  | PFloat _ => "float"
  | PStr _ => "str"
  | PList _ => "list"
  | PDict _ => "dict"
  end.

(** [bool(v)], the truth value that [if v:] tests. *)
Definition truthy (v : pyval) : bool :=
  match v with
  | PNone => false
  | PBool b => b
  | PInt z => negb (z =? 0)%Z
  | PFloat r => negb (String.eqb r "0.0" || String.eqb r "-0.0")
  | PStr s => negb (String.eqb s "")
  | PList l => match l with [] => false | _ => true end
  | PDict d => match d with [] => false | _ => true end
  end.

(** Lists and dicts cannot be keys of a dict. *)
Definition hashable (v : pyval) : bool :=
  match v with
  | PList _ | PDict _ => false
  | _ => true
  end.

(** ** Strings *)

(** [s.startswith(p)]. *)
Fixpoint startswith (s p : string) {struct p} : bool :=
  match p, s with
  | EmptyString, _ => true
  | String _ _, EmptyString => false
  | String b p', String a s' => if decide (a = b) then startswith s' p' else false
  end.

(** [c.isspace()] for a code point below 256: the controls 9 to 13 and
    28 to 31, the space, U+0085 and U+00A0. *)
Definition isspace (c : Ascii.ascii) : bool :=
  let n := Ascii.N_of_ascii c in
  ((9 <=? n) && (n <=? 13) || (28 <=? n) && (n <=? 32)
   || (n =? 133) || (n =? 160))%N.

Fixpoint lstrip (s : string) : string :=
  match s with
  | EmptyString => EmptyString
  | String c s' => if isspace c then lstrip s' else s
  end.

Fixpoint rstrip (s : string) : string :=
  match s with
  | EmptyString => EmptyString
  | String c s' =>
      match rstrip s' with
      | EmptyString => if isspace c then EmptyString else String c EmptyString
      | r => String c r
      end
  end.

(** [s.strip()]. *)
Definition strip (s : string) : string := rstrip (lstrip s).

(** A line made of whitespace only (the empty line included). *)
Fixpoint blank (s : string) : bool :=
  match s with
  | EmptyString => true
  | String c s' => isspace c && blank s'
  end.

(** ** executable_backend_config.py *)

Definition MULTI_TURN_FUNC_DOC_FILE_MAPPING : list (string * string) :=
  [ ("GorillaFileSystem", "gorilla_file_system.json");
    ("MathAPI", "math_api.json");
    ("MessageAPI", "message_api.json");
    ("TwitterAPI", "posting_api.json");
    ("TicketAPI", "ticket_api.json");
    ("TradingBot", "trading_bot.json");
    ("TravelAPI", "travel_booking.json");
    ("VehicleControlAPI", "vehicle_control.json") ].

Definition BACKEND_PATH_PREFIX : string :=
  "bfcl_eval.eval_checker.multi_turn_eval.func_source_code".

Definition CLASS_FILE_PATH_MAPPING : list (string * string) :=
  [ ("GorillaFileSystem", BACKEND_PATH_PREFIX +:+ ".gorilla_file_system");
    ("MathAPI", BACKEND_PATH_PREFIX +:+ ".math_api");
    ("MessageAPI", BACKEND_PATH_PREFIX +:+ ".message_api");
    ("TwitterAPI", BACKEND_PATH_PREFIX +:+ ".posting_api");
    ("TicketAPI", BACKEND_PATH_PREFIX +:+ ".ticket_api");
    ("TradingBot", BACKEND_PATH_PREFIX +:+ ".trading_bot");
    ("TravelAPI", BACKEND_PATH_PREFIX +:+ ".travel_booking");
    ("VehicleControlAPI", BACKEND_PATH_PREFIX +:+ ".vehicle_control") ].

Definition STATELESS_CLASSES : list string := [ "MathAPI" ].

Definition OMIT_STATE_INFO_CLASSES : list string := [].

(** The names a mapping literal lists, in the order of the source. *)
Definition api_names (mapping : list (string * string)) : list string :=
  mapping.*1.

(** ** Exceptions *)

(** An instance of a subclass of [Exception]: its class and [str(e)]. *)
Record exn : Type := Exn { exn_class : string; str_exn : string }.

(** [obj.attr] on an object that has no such attribute. *)
Definition AttributeError (v : pyval) (attr : string) : exn :=
  Exn "AttributeError"
      ("'" +:+ type_name v +:+ "' object has no attribute '" +:+ attr +:+ "'").

(** A list or a dict used as the key of a dict lookup (the message of
    CPython up to 3.13). *)
Definition TypeError_unhashable (v : pyval) : exn :=
  Exn "TypeError" ("unhashable type: '" +:+ type_name v +:+ "'").

(** [del d[k]] on a key that is not there; [str] of a [KeyError] is the
    [repr] of the key. *)
Definition KeyError (repr_of_key : string) : exn := Exn "KeyError" repr_of_key.

(** A global name that is bound neither in the module nor in the
    builtins. *)
Definition NameError (name : string) : exn :=
  Exn "NameError" ("name '" +:+ name +:+ "' is not defined").

Inductive res (A : Type) : Type :=
  | Return (a : A)
  | Raise (e : exn).
Arguments Return {A} a.
Arguments Raise {A} e.

(** ** What the runner imports *)

(** The parts of the process that [runner.py] uses and does not define:
    the objects the module namespace may hold, the state the collaborators
    keep for themselves, [repr] on strings, [json.loads], and what a call
    of an object of the namespace does.  [call_keywords f kwargs] is the
    call of lines 15 to 23 on the object [f] bound to
    [execute_multi_turn_func_call], with its value unpacked into the
    results and the instances; [call_positional f] is the call of lines 28
    to 34 on the object bound to [multi_turn_checker].  A call is given the
    module namespace and the state of the collaborators and gives both
    back, with a value or an exception. *)
Class Runtime : Type := {
  Obj : Type;
  World : Type;
  Instances : Type;
  repr_str : string -> string;
  json_loads : string -> res pyval;
  call_keywords :
    Obj -> dict -> gmap string Obj * World ->
    res (pyval * Instances) * (gmap string Obj * World);
  call_positional :
    Obj -> pyval -> pyval -> pyval -> pyval -> pyval -> gmap string Obj * World ->
    res pyval * (gmap string Obj * World);
}.

(** A call that the runner made, with its arguments: the one of line 15,
    by keyword, and the one of line 28, by position. *)
Inductive call : Type :=
  | EngineCall (kwargs : dict)
  | CheckerCall (args : list pyval).

Section Runner.
Context `{RT : Runtime}.

(** The process state: the module namespace of [runner.py], the state of
    the collaborators, and the log of the calls made to them (a ghost
    field: no code reads it). *)
Record state : Type := State {
  globals : gmap string Obj;
  world : World;
  calls : list call;
}.

Definition M (A : Type) : Type := state -> res A * state.

Definition ret {A} (a : A) : M A := fun s => (Return a, s).
Definition raise {A} (e : exn) : M A := fun s => (Raise e, s).
Definition bind {A B} (m : M A) (k : A -> M B) : M B :=
  fun s => match m s with
           | (Return a, s') => k a s'
           | (Raise e, s') => (Raise e, s')
           end.
(** [try: m  except Exception as e: h e]. *)
Definition try_except {A} (m : M A) (h : exn -> M A) : M A :=
  fun s => match m s with
           | (Return a, s') => (Return a, s')
           | (Raise e, s') => h e s'
           end.

Notation "x <~ m ;; k" := (bind m (fun x => k))
  (at level 100, m at next level, right associativity, only parsing).
Notation "m ;;; k" := (bind m (fun _ => k))
  (at level 100, right associativity, only parsing).

(** [repr(v)] and [str(v)], which an f-string applies to a field. *)
Fixpoint repr (v : pyval) : string :=
  match v with
  | PNone => "None"
  | PBool true => "True"
  | PBool false => "False"
  | PInt z => pretty z
  | PFloat r => r
  | PStr s => repr_str s
  | PList l => "[" +:+ String.concat ", " (map repr l) +:+ "]"
  | PDict d =>
      "{" +:+ String.concat ", "
                (map (fun kv => repr_str (fst kv) +:+ ": " +:+ repr (snd kv)) d)
          +:+ "}"
  end.

Definition str (v : pyval) : string :=
  match v with
  | PStr s => s
  | _ => repr v
  end.

(** [payload.get(key, default)]: only a dict has [get]. *)
Definition payload_get (payload : pyval) (key : string) (default : pyval) : M pyval :=
  match payload with
  | PDict d => ret (dict_get_default d key default)
  | _ => raise (AttributeError payload "get")
  end.

(** The use of a global name: the object bound to it in the module
    namespace, or a [NameError]. *)
Definition load_global (name : string) : M Obj :=
  fun s =>
    match globals s !! name with
    | Some f => (Return f, s)
    | None => (Raise (NameError name), s)
    end.

Definition call_engine (f : Obj) (kwargs : dict) : M (pyval * Instances) :=
  fun s =>
    let '(r, (g, w)) := call_keywords f kwargs (globals s, world s) in
    (r, State g w (calls s ++ [EngineCall kwargs])).

Definition call_checker (f : Obj) (a1 a2 a3 a4 a5 : pyval) : M pyval :=
  fun s =>
    let '(r, (g, w)) := call_positional f a1 a2 a3 a4 a5 (globals s, world s) in
    (r, State g w (calls s ++ [CheckerCall [a1; a2; a3; a4; a5]])).

(** The name of the callee is looked up first, then the arguments are
    evaluated from left to right, then the call is made. *)
Definition _handle_execute (payload : pyval) : M dict :=
  execute_multi_turn_func_call <~ load_global "execute_multi_turn_func_call";;
  func_call_list <~ payload_get payload "func_call_list" (PList []);;
  initial_config <~ payload_get payload "initial_config" (PDict []);;
  involved_classes <~ payload_get payload "involved_classes" (PList []);;
  model_name <~ payload_get payload "model_name" (PStr "model");;
  test_entry_id <~ payload_get payload "test_entry_id" (PStr "");;
  long_context <~ payload_get payload "long_context" (PBool false);;
  is_eval_run <~ payload_get payload "is_eval_run" (PBool false);;
  r <~ call_engine execute_multi_turn_func_call
         [ ("func_call_list", func_call_list);
           ("initial_config", initial_config);
           ("involved_classes", involved_classes);
           ("model_name", model_name);
           ("test_entry_id", test_entry_id);
           ("long_context", PBool (truthy long_context));
           ("is_evaL_run", PBool (truthy is_eval_run)) ];;
  let '(results, _instances) := r in
  ret [("results", results)].

Definition _handle_check (payload : pyval) : M dict :=
  multi_turn_checker <~ load_global "multi_turn_checker";;
  model_results <~ payload_get payload "model_results" (PList []);;
  ground_truth <~ payload_get payload "ground_truth" (PList []);;
  test_entry <~ payload_get payload "test_entry" (PDict []);;
  test_category <~ payload_get payload "test_category" (PStr "");;
  model_name <~ payload_get payload "model_name" (PStr "model");;
  result <~ call_checker multi_turn_checker model_results ground_truth test_entry
                         test_category model_name;;
  ret [("result", result)].

(** [del globals()[k]]. *)
Definition del_global (k : string) : M unit :=
  fun s =>
    match globals s !! k with
    | Some _ => (Return tt, State (delete k (globals s)) (world s) (calls s))
    | None => (Raise (KeyError (repr_str k)), s)
    end.

(** [for k in to_delete: try: del globals()[k]  except Exception: pass]. *)
Fixpoint delete_each (to_delete : list string) : M unit :=
  match to_delete with
  | [] => ret tt
  | k :: rest =>
      try_except (del_global k) (fun _ => ret tt);;;
      delete_each rest
  end.

Definition _handle_reset (payload : pyval) : M dict :=
  model_name <~ payload_get payload "model_name" PNone;;
  test_entry_id <~ payload_get payload "test_entry_id" PNone;;
  (if truthy model_name && truthy test_entry_id then
     let prefix := str model_name +:+ "_" +:+ str test_entry_id +:+ "_" in
     fun s =>
       let to_delete :=
         filter (fun k => startswith k prefix = true) (map_to_list (globals s)).*1 in
       delete_each to_delete s
   else ret tt);;;
  ret [("reset", PBool true)].

Definition HANDLERS : list (string * (pyval -> M dict)) :=
  [ ("execute", _handle_execute);
    ("check", _handle_check);
    ("reset", _handle_reset) ].

(** [HANDLERS.get(action)]: [None] for a key that is not there, and a
    [TypeError] for a key that cannot be hashed. *)
Definition HANDLERS_get (action : pyval) : M (option (pyval -> M dict)) :=
  match action with
  | PStr s => ret (snd <$> List.find (fun kv => String.eqb (fst kv) s) HANDLERS)
  | PList _ | PDict _ => raise (TypeError_unhashable action)
  | _ => ret None
  end.

(** Lines 69 to 75: what the [try] block does once the line is parsed. *)
Definition dispatch (payload : pyval) : M dict :=
  action <~ payload_get payload "action" PNone;;
  handler <~ HANDLERS_get action;;
  response <~ match handler with
              | None => ret [("error", PStr ("unknown action: " +:+ str action))]
              | Some h => h payload
              end;;
  id <~ payload_get payload "id" PNone;;
  ret (dict_set response "id" id).

(** Line 77, the [except] clause.  [bound] is the local variable
    [payload]: [None] as long as no assignment to it has been made. *)
Definition except_clause (e : exn) (bound : option pyval) : M dict :=
  id <~ match bound with
        | Some payload => payload_get payload "id" PNone
        | None => ret PNone
        end;;
  ret [("id", id); ("error", PStr (str_exn e))].

(** What [main] carries from one line to the next: the process state,
    its local variable [payload], and the responses written so far (each
    is written as one line, [json.dumps(response)]). *)
Record loop : Type := Loop {
  st : state;
  payload_local : option pyval;
  out : list dict;
}.

(** An iteration ends with the loop going on, or with an exception that
    nothing catches and that ends [main]. *)
Inductive step : Type :=
  | Next (L : loop)
  | Crash (e : exn) (L : loop).

(** The body of [for line in sys.stdin]. *)
Definition main_step (line : string) (L : loop) : step :=
  if decide (line = "") then Next L
  else
    let line := strip line in
    if decide (line = "") then Next L
    else
      match json_loads line with
      | Raise e =>
          match except_clause e (payload_local L) (st L) with
          | (Return response, s) =>
              Next (Loop s (payload_local L) (out L ++ [response]))
          | (Raise e', s) => Crash e' (Loop s (payload_local L) (out L))
          end
      | Return payload =>
          match dispatch payload (st L) with
          | (Return response, s) =>
              Next (Loop s (Some payload) (out L ++ [response]))
          | (Raise e, s) =>
              match except_clause e (Some payload) s with
              | (Return response, s') =>
                  Next (Loop s' (Some payload) (out L ++ [response]))
              | (Raise e', s') => Crash e' (Loop s' (Some payload) (out L))
              end
          end
      end.

(** [main] on the lines of the input stream. *)
Fixpoint main_loop (lines : list string) (L : loop) : step :=
  match lines with
  | [] => Next L
  | line :: rest =>
      match main_step line L with
      | Next L' => main_loop rest L'
      | Crash e L' => Crash e L'
      end
  end.

Definition main (lines : list string) (s : state) : step :=
  main_loop lines (Loop s None []).

End Runner.

(** ** Vocabulary of the specification *)

Section Vocabulary.
Context `{RT : Runtime}.

(** A Session Key is a pair (model_name, test_entry_id); its derived
    prefix is the one [_handle_reset] computes from the two fields. *)
Definition session_prefix (model_name test_entry_id : pyval) : string :=
  str model_name +:+ "_" +:+ str test_entry_id +:+ "_".

(** A cached entry is associated with a Session Key when its name
    matches the derived prefix of the key. *)
Definition belongs_to (name : string) (key : pyval * pyval) : bool :=
  startswith name (session_prefix key.1 key.2).

(** A line that parses as a request: a JSON object. *)
Definition parses_as_request (line : string) (d : dict) : Prop :=
  strip line <> "" /\ json_loads (strip line) = Return (PDict d).

(** A line the loop can answer: blank, malformed, or a JSON object. *)
Definition answerable (line : string) : Prop :=
  blank line = true
  \/ match json_loads (strip line) with
     | Raise _ | Return (PDict _) => True
     | Return _ => False
     end.

(** The local variable [payload] is unbound or holds a JSON object. *)
Definition payload_is_object (L : loop) : Prop :=
  match payload_local L with
  | None | Some (PDict _) => True
  | Some _ => False
  end.

(** The lines of a stream that are not blank. *)
Definition requests (lines : list string) : list string :=
  filter (fun line => blank line = false) lines.

(** The keyword arguments of the call on lines 15 to 23, read from the
    payload [d]. *)
Definition execute_kwargs (d : dict) : dict :=
  [ ("func_call_list", dict_get_default d "func_call_list" (PList []));
    ("initial_config", dict_get_default d "initial_config" (PDict []));
    ("involved_classes", dict_get_default d "involved_classes" (PList []));
    ("model_name", dict_get_default d "model_name" (PStr "model"));
    ("test_entry_id", dict_get_default d "test_entry_id" (PStr ""));
    ("long_context", PBool (truthy (dict_get_default d "long_context" (PBool false))));
    ("is_evaL_run", PBool (truthy (dict_get_default d "is_eval_run" (PBool false)))) ].

(** The positional arguments of the call on lines 28 to 34. *)
Definition check_args (d : dict) : list pyval :=
  [ dict_get_default d "model_results" (PList []);
    dict_get_default d "ground_truth" (PList []);
    dict_get_default d "test_entry" (PDict []);
    dict_get_default d "test_category" (PStr "");
    dict_get_default d "model_name" (PStr "model") ].

(** The calls that handling a request makes in a given state: the one of
    line 15 for [execute] and the one of line 28 for [check], each only
    when the name of its callee is bound; none for anything else. *)
Definition collaborator_calls (d : dict) (s : state) : list call :=
  match dict_get_default d "action" PNone with
  | PStr name =>
      if String.eqb name "execute" then
        match globals s !! "execute_multi_turn_func_call" with
        | Some _ => [EngineCall (execute_kwargs d)]
        | None => []
        end
      else if String.eqb name "check" then
        match globals s !! "multi_turn_checker" with
        | Some _ => [CheckerCall (check_args d)]
        | None => []
        end
      else []
  | _ => []
  end.

(** The id that the [except] clause echoes: that of the object bound to
    [payload], null while nothing is bound. *)
Definition bound_id (L : loop) : pyval :=
  match payload_local L with
  | Some (PDict d) => dict_get_default d "id" PNone
  | _ => PNone
  end.

(** Whether a name contains the character [_]. *)
Fixpoint has_underscore (name : string) : bool :=
  match name with
  | EmptyString => false
  | String c name' => bool_decide (c = Ascii.ascii_of_nat 95) || has_underscore name'
  end.

(** The global names, other than the two collaborators, that the code of
    [runner.py] uses when it handles a line. *)
Definition names_used : list string := ["sys"; "json"; "HANDLERS"].

(** The field, besides [id], that tells the kind of a response. *)
Definition response_kinds : list string := ["results"; "result"; "reset"; "error"].

(** A response as the protocol has it: two fields, [id] and one that
    tells its kind. *)
Definition well_formed_response (r : dict) : Prop :=
  length r = 2
  /\ is_Some (dict_get r "id")
  /\ exists kind, kind ∈ response_kinds /\ is_Some (dict_get r kind).

End Vocabulary.

(** ** A concrete runtime, for the examples *)

Module Sample.

(** The double quote. *)
Definition dq : string := String (Ascii.ascii_of_nat 34) EmptyString.
Definition quoted (s : string) : string := dq +:+ s +:+ dq.

(** [{"id": 7, "action": "reset"}] *)
Definition line_reset7 : string :=
  "{" +:+ quoted "id" +:+ ": 7, " +:+ quoted "action" +:+ ": "
      +:+ quoted "reset" +:+ "}".
(** [{"id": 3, "action": "frobnicate"}] *)
Definition line_unknown : string :=
  "{" +:+ quoted "id" +:+ ": 3, " +:+ quoted "action" +:+ ": "
      +:+ quoted "frobnicate" +:+ "}".
(** [{"id": 2, "action": "execute", "involved_classes": ["NoSuchAPI"]}] *)
Definition line_no_such_api : string :=
  "{" +:+ quoted "id" +:+ ": 2, " +:+ quoted "action" +:+ ": "
      +:+ quoted "execute" +:+ ", " +:+ quoted "involved_classes" +:+ ": ["
      +:+ quoted "NoSuchAPI" +:+ "]}".
(** [{"id": 1, "action": []}] *)
Definition line_action_list : string :=
  "{" +:+ quoted "id" +:+ ": 1, " +:+ quoted "action" +:+ ": []}".
Definition line_five : string := "5".
Definition line_not_json : string := "{not json".

(** The end of a line, as [sys.stdin] yields it. *)
Definition nl : string := String (Ascii.ascii_of_nat 10) EmptyString.

(** [json.loads] on the lines above; the table stands for the decoder on
    these lines only, and a line outside it is reported as malformed. *)
Definition decoded : list (string * pyval) :=
  [ (line_reset7, PDict [("id", PInt 7); ("action", PStr "reset")]);
    (line_unknown, PDict [("id", PInt 3); ("action", PStr "frobnicate")]);
    (line_no_such_api,
      PDict [("id", PInt 2); ("action", PStr "execute");
             ("involved_classes", PList [PStr "NoSuchAPI"])]);
    (line_action_list, PDict [("id", PInt 1); ("action", PList [])]);
    (line_five, PInt 5) ].

Definition JSONDecodeError : exn :=
  Exn "JSONDecodeError"
      "Expecting property name enclosed in double quotes: line 1 column 2 (char 1)".

Definition loads (line : string) : res pyval :=
  match dict_get decoded line with
  | Some v => Return v
  | None => Raise JSONDecodeError
  end.

(** [repr] on a string without quote, backslash or unprintable
    character. *)
Definition repr_plain (s : string) : string := "'" +:+ s +:+ "'".

(** An engine that fails on a class outside the registry, as the
    specification says of the real one, and answers every call of the
    list otherwise; it keeps no state. *)
Definition unknown_class (v : pyval) : option string :=
  match v with
  | PStr n => if bool_decide (n ∈ api_names CLASS_FILE_PATH_MAPPING) then None
              else Some n
  | _ => Some (type_name v)
  end.

Definition engine (kwargs : dict) (s : gmap string string * unit)
  : res (pyval * unit) * (gmap string string * unit) :=
  match dict_get_default kwargs "involved_classes" (PList []) with
  | PList classes =>
      match omap unknown_class classes with
      | n :: _ => (Raise (KeyError (repr_plain n)), s)
      | [] =>
          match dict_get_default kwargs "func_call_list" (PList []) with
          | PList turns => (Return (PList (map (fun _ => PList []) turns), tt), s)
          | _ => (Return (PList [], tt), s)
          end
      end
  | _ => (Raise (Exn "TypeError" "involved_classes is not a list"), s)
  end.

(** A checker that is a function of its arguments alone. *)
Definition verdict (model_results ground_truth test_entry test_category
                    model_name : pyval) : res pyval :=
  match model_results, ground_truth with
  | PList a, PList b =>
      Return (PDict [("valid", PBool (bool_decide (length a = length b)))])
  | _, _ => Raise (Exn "TypeError" "object of this type has no len()")
  end.

Definition checker (a1 a2 a3 a4 a5 : pyval) (s : gmap string string * unit)
  : res pyval * (gmap string string * unit) :=
  (verdict a1 a2 a3 a4 a5, s).

(** The objects of the namespace are told by their [repr]; the two
    imported functions can be called, an instance cannot. *)
Definition engine_function : string := "<function execute_multi_turn_func_call>".
Definition checker_function : string := "<function multi_turn_checker>".
Definition not_callable : exn := Exn "TypeError" "object is not callable".

Definition call_kw (f : string) (kwargs : dict) (s : gmap string string * unit)
  : res (pyval * unit) * (gmap string string * unit) :=
  if bool_decide (f = engine_function) then engine kwargs s
  else (Raise not_callable, s).

Definition call_pos (f : string) (a1 a2 a3 a4 a5 : pyval)
                    (s : gmap string string * unit)
  : res pyval * (gmap string string * unit) :=
  if bool_decide (f = checker_function) then checker a1 a2 a3 a4 a5 s
  else (Raise not_callable, s).

Definition runtime : Runtime :=
  {| Obj := string; World := unit; Instances := unit;
     repr_str := repr_plain; json_loads := loads;
     call_keywords := call_kw;
     call_positional := call_pos |}.

(** The module namespace once the imports of lines 10 and 11 are made. *)
Definition imported_names : gmap string string :=
  {[ "execute_multi_turn_func_call" := engine_function;
     "multi_turn_checker" := checker_function ]}.

Definition imported : @state runtime := @State runtime imported_names tt [].

(** A process with an empty namespace: nothing cached, no call made. *)
Definition start : @state runtime := @State runtime ∅ tt [].

(** A namespace that holds one cached instance, created for the session
    of model [a_b] and test entry [c]. *)
Definition one_cached : @state runtime :=
  @State runtime {[ "a_b_c_TradingBot_instance" := "TradingBot()" ]} tt [].

End Sample.

(** The same runtime with a decoder that knows more lines. *)
Module Sample2.

(** [{"id": 4, "action": "check", "model_results": [[]], "ground_truth": [[]]}] *)
Definition line_check : string :=
  "{" +:+ Sample.quoted "id" +:+ ": 4, " +:+ Sample.quoted "action" +:+ ": "
      +:+ Sample.quoted "check" +:+ ", " +:+ Sample.quoted "model_results"
      +:+ ": [[]], " +:+ Sample.quoted "ground_truth" +:+ ": [[]]}".

(** [{"id": 5, "action": "execute", "involved_classes": ["MathAPI"],
      "func_call_list": [[], []]}] *)
Definition line_execute : string :=
  "{" +:+ Sample.quoted "id" +:+ ": 5, " +:+ Sample.quoted "action" +:+ ": "
      +:+ Sample.quoted "execute" +:+ ", " +:+ Sample.quoted "involved_classes"
      +:+ ": [" +:+ Sample.quoted "MathAPI" +:+ "], "
      +:+ Sample.quoted "func_call_list" +:+ ": [[], []]}".

(** [{"id": 8, "action": "reset", "model_name": "execute",
      "test_entry_id": "multi"}] *)
Definition line_reset_execute_multi : string :=
  "{" +:+ Sample.quoted "id" +:+ ": 8, " +:+ Sample.quoted "action" +:+ ": "
      +:+ Sample.quoted "reset" +:+ ", " +:+ Sample.quoted "model_name" +:+ ": "
      +:+ Sample.quoted "execute" +:+ ", " +:+ Sample.quoted "test_entry_id"
      +:+ ": " +:+ Sample.quoted "multi" +:+ "}".

(** [{"id": 9, "action": "execute"}] *)
Definition line_execute_bare : string :=
  "{" +:+ Sample.quoted "id" +:+ ": 9, " +:+ Sample.quoted "action" +:+ ": "
      +:+ Sample.quoted "execute" +:+ "}".

(** [{"id": 10, "action": "reset", "model_name": "multi",
      "test_entry_id": "turn"}] *)
Definition line_reset_multi_turn : string :=
  "{" +:+ Sample.quoted "id" +:+ ": 10, " +:+ Sample.quoted "action" +:+ ": "
      +:+ Sample.quoted "reset" +:+ ", " +:+ Sample.quoted "model_name" +:+ ": "
      +:+ Sample.quoted "multi" +:+ ", " +:+ Sample.quoted "test_entry_id"
      +:+ ": " +:+ Sample.quoted "turn" +:+ "}".

Definition line_array : string := "[1, 2]".

Definition payload_check : dict :=
  [("id", PInt 4); ("action", PStr "check");
   ("model_results", PList [PList []]); ("ground_truth", PList [PList []])].

Definition payload_execute : dict :=
  [("id", PInt 5); ("action", PStr "execute");
   ("involved_classes", PList [PStr "MathAPI"]);
   ("func_call_list", PList [PList []; PList []])].

Definition payload_reset_execute_multi : dict :=
  [("id", PInt 8); ("action", PStr "reset");
   ("model_name", PStr "execute"); ("test_entry_id", PStr "multi")].

Definition payload_execute_bare : dict :=
  [("id", PInt 9); ("action", PStr "execute")].

Definition payload_reset_multi_turn : dict :=
  [("id", PInt 10); ("action", PStr "reset");
   ("model_name", PStr "multi"); ("test_entry_id", PStr "turn")].

Definition decoded : list (string * pyval) :=
  Sample.decoded
  ++ [ (line_check, PDict payload_check);
       (line_execute, PDict payload_execute);
       (line_reset_execute_multi, PDict payload_reset_execute_multi);
       (line_execute_bare, PDict payload_execute_bare);
       (line_reset_multi_turn, PDict payload_reset_multi_turn);
       (line_array, PList [PInt 1; PInt 2]) ].

Definition loads (line : string) : res pyval :=
  match dict_get decoded line with
  | Some v => Return v
  | None => Raise Sample.JSONDecodeError
  end.

Definition runtime : Runtime :=
  {| Obj := string; World := unit; Instances := unit;
     repr_str := Sample.repr_plain; json_loads := loads;
     call_keywords := Sample.call_kw;
     call_positional := Sample.call_pos |}.

(** The process at start: the two imported names bound, nothing cached,
    no call made. *)
Definition start : @state runtime := @State runtime Sample.imported_names tt [].

End Sample2.

(** * Properties *)

(** ** Strings *)

Lemma startswith_app (p s : string) : startswith (p +:+ s) p = true.
Proof.
  induction p as [|c p IH]; simpl; [done |].
  by rewrite decide_True.
Qed.

Lemma startswith_inv (s p : string) :
  startswith s p = true -> exists t, s = p +:+ t.
Proof.
  revert s; induction p as [|c p IH]; intros s H; simpl in *.
  - by exists s.
  - destruct s as [|a s]; [done |].
    case_decide; [|done]. subst a.
    destruct (IH _ H) as [t ->]. by exists t.
Qed.

Lemma rstrip_empty (s : string) : rstrip s = "" <-> blank s = true.
Proof.
  induction s as [|c s IH]; simpl; [done |].
  destruct (rstrip s) eqn:E, (isspace c), (blank s); simpl; split; try done.
  - intros _. by apply IH.
  - intros _. by destruct IH as [_ IH]; specialize (IH eq_refl).
Qed.

Lemma blank_lstrip (s : string) : blank (lstrip s) = blank s.
Proof.
  induction s as [|c s IH]; simpl; [done |].
  destruct (isspace c) eqn:E; simpl; [done | by rewrite E].
Qed.

(** A line is skipped by the second test of [main] exactly when it is
    made of whitespace. *)
Lemma strip_empty (s : string) : strip s = "" <-> blank s = true.
Proof. unfold strip. by rewrite rstrip_empty, blank_lstrip. Qed.

(** ** The registry *)

(** C9: the two mappings list the same API names, each name once in each,
    and every name classified as stateless or as omitted from the log is
    one of these names. *)
Theorem registry_consistent :
  NoDup (api_names MULTI_TURN_FUNC_DOC_FILE_MAPPING)
  /\ NoDup (api_names CLASS_FILE_PATH_MAPPING)
  /\ (forall n : string,
        n ∈ api_names MULTI_TURN_FUNC_DOC_FILE_MAPPING
        <-> n ∈ api_names CLASS_FILE_PATH_MAPPING)
  /\ (forall n : string,
        n ∈ STATELESS_CLASSES -> n ∈ api_names CLASS_FILE_PATH_MAPPING)
  /\ (forall n : string,
        n ∈ OMIT_STATE_INFO_CLASSES -> n ∈ api_names CLASS_FILE_PATH_MAPPING).
Proof.
  assert (Hsame : api_names MULTI_TURN_FUNC_DOC_FILE_MAPPING
                  = api_names CLASS_FILE_PATH_MAPPING) by reflexivity.
  assert (Hnodup : NoDup (api_names CLASS_FILE_PATH_MAPPING)).
  { apply (bool_decide_unpack _). by vm_compute. }
  split_and!.
  - by rewrite Hsame.
  - done.
  - intros n. by rewrite Hsame.
  - intros n Hn. apply list_elem_of_singleton in Hn as ->.
    apply (bool_decide_unpack _). by vm_compute.
  - intros n Hn. by apply elem_of_nil in Hn.
Qed.

(** ** reset *)

Section Reset.
Context `{RT : Runtime}.

(** The scan of [_handle_reset] selects the bound names that start with
    the prefix. *)
Lemma to_delete_spec (g : gmap string Obj) (prefix k : string) :
  k ∈ filter (fun k => startswith k prefix = true) (map_to_list g).*1
  <-> startswith k prefix = true /\ is_Some (g !! k).
Proof.
  rewrite list_elem_of_filter, list_elem_of_fmap. split.
  - intros [Hk ([k' o] & -> & Hin)]. split; [done |].
    apply elem_of_map_to_list in Hin. by exists o.
  - intros [Hk [o Ho]]. split; [done |].
    exists (k, o). split; [done |]. by apply elem_of_map_to_list.
Qed.

(** The deletion loop never raises, removes the listed names and nothing
    else, and leaves the rest of the state alone. *)
Lemma delete_each_spec (l : list string) (s : state) :
  exists g,
    delete_each l s = (Return tt, State g (world s) (calls s))
    /\ forall k, g !! k = if decide (k ∈ l) then None else globals s !! k.
Proof.
  revert s; induction l as [|a l IH]; intros s.
  - exists (globals s). split; [by destruct s |].
    intros k. rewrite decide_False; [done | apply not_elem_of_nil].
  - cbn [delete_each]. unfold bind, try_except, del_global, ret.
    destruct (globals s !! a) as [o|] eqn:Ha.
    + destruct (IH (State (delete a (globals s)) (world s) (calls s)))
        as (g & -> & Hg).
      exists g. split; [done |]. intros k. rewrite Hg. cbn [globals].
      destruct (decide (k = a)) as [->|Hne].
      * rewrite lookup_delete_eq, (decide_True (P := a ∈ a :: l));
          [by case_decide | by left].
      * rewrite lookup_delete_ne by done.
        destruct (decide (k ∈ l)) as [Hin|Hin].
        -- rewrite decide_True; [done | by right].
        -- rewrite decide_False; [done |].
           by intros [?|?]%elem_of_cons.
    + destruct (IH s) as (g & -> & Hg).
      exists g. split; [done |]. intros k. rewrite Hg.
      destruct (decide (k = a)) as [->|Hne].
      * rewrite Ha, (decide_True (P := a ∈ a :: l)); [by case_decide | by left].
      * destruct (decide (k ∈ l)) as [Hin|Hin].
        -- rewrite decide_True; [done | by right].
        -- rewrite decide_False; [done |].
           by intros [?|?]%elem_of_cons.
Qed.

(** What a reset request does to the state, whatever its fields are. *)
Lemma handle_reset_spec (d : dict) (s : state) :
  let m := dict_get_default d "model_name" PNone in
  let t := dict_get_default d "test_entry_id" PNone in
  exists g,
    _handle_reset (PDict d) s
    = (Return [("reset", PBool true)], State g (world s) (calls s))
    /\ forall k,
         g !! k = if truthy m && truthy t && startswith k (session_prefix m t)
                  then None else globals s !! k.
Proof.
  intros m t. unfold _handle_reset, payload_get, bind, ret. fold m t.
  destruct (truthy m && truthy t) eqn:Htruthy; cbn [andb].
  - fold (session_prefix m t).
    destruct (delete_each_spec
                (filter (fun k => startswith k (session_prefix m t) = true)
                        (map_to_list (globals s)).*1) s) as (g & -> & Hg).
    exists g. split; [done |]. intros k. rewrite Hg.
    destruct (startswith k (session_prefix m t)) eqn:Hk.
    + destruct (globals s !! k) as [o|] eqn:Ho.
      * rewrite decide_True; [done |]. apply to_delete_spec. eauto.
      * by case_decide.
    + rewrite decide_False; [done |].
      intros [Hk' _]%to_delete_spec. congruence.
  - exists (globals s). split; [by destruct s | done].
Qed.

Lemma state_eq (s1 s2 : state) :
  (forall k, globals s1 !! k = globals s2 !! k) ->
  world s1 = world s2 -> calls s1 = calls s2 -> s1 = s2.
Proof.
  destruct s1, s2; cbn. intros Hg -> ->. f_equal. by apply map_eq.
Qed.


(** C3, as the code has it: when both fields are truthy, reset removes
    every bound name that starts with the derived prefix and keeps every
    other binding as it was; the state of the collaborators and the log
    of calls are untouched. *)
Theorem reset_removes_prefix_matches (d : dict) (s : state) (m t : pyval) :
  dict_get d "model_name" = Some m ->
  dict_get d "test_entry_id" = Some t ->
  truthy m = true ->
  truthy t = true ->
  let s' := (_handle_reset (PDict d) s).2 in
  (forall k, startswith k (session_prefix m t) = true -> globals s' !! k = None)
  /\ (forall k, startswith k (session_prefix m t) = false ->
                globals s' !! k = globals s !! k)
  /\ world s' = world s
  /\ calls s' = calls s.
Proof.
  intros Hm Ht Tm Tt s'.
  destruct (handle_reset_spec d s) as (g & Hr & Hg).
  unfold dict_get_default in Hg. rewrite Hm, Ht, Tm, Tt in Hg. cbn [andb] in Hg.
  subst s'. rewrite Hr. cbn.
  split_and!; [| |done..]; intros k Hk; by rewrite Hg, Hk.
Qed.

End Reset.

(** ** execute and check *)

Section Handlers.
Context `{RT : Runtime}.

(** [_handle_execute] on a JSON object while the name of the engine is
    bound to [f]: one call of [f], on the state as it is, with the
    arguments read from the payload; its results come back under
    [results] and its exception, if any, goes on. *)
Lemma handle_execute_spec (d : dict) (s : state) (f : Obj) :
  globals s !! "execute_multi_turn_func_call" = Some f ->
  let c := call_keywords f (execute_kwargs d) (globals s, world s) in
  _handle_execute (PDict d) s
  = (match c.1 with
     | Return (results, _) => Return [("results", results)]
     | Raise e => Raise e
     end,
     State c.2.1 c.2.2 (calls s ++ [EngineCall (execute_kwargs d)])).
Proof.
  intros Hf c.
  unfold _handle_execute, load_global, payload_get, bind, ret, call_engine.
  rewrite Hf. fold (execute_kwargs d). subst c.
  destruct (call_keywords f (execute_kwargs d) (globals s, world s))
    as [[[results inst]|e] [g w]]; done.
Qed.

(** Once the name of the engine is unbound, [_handle_execute] raises a
    [NameError] before anything else is done. *)
Lemma handle_execute_unbound (payload : pyval) (s : state) :
  globals s !! "execute_multi_turn_func_call" = None ->
  _handle_execute payload s = (Raise (NameError "execute_multi_turn_func_call"), s).
Proof. intros Hf. unfold _handle_execute, load_global, bind. by rewrite Hf. Qed.

(** The same for [_handle_check] and the checker. *)
Lemma handle_check_spec (d : dict) (s : state) (f : Obj) :
  globals s !! "multi_turn_checker" = Some f ->
  let c := call_positional f
             (dict_get_default d "model_results" (PList []))
             (dict_get_default d "ground_truth" (PList []))
             (dict_get_default d "test_entry" (PDict []))
             (dict_get_default d "test_category" (PStr ""))
             (dict_get_default d "model_name" (PStr "model"))
             (globals s, world s) in
  _handle_check (PDict d) s
  = (match c.1 with
     | Return result => Return [("result", result)]
     | Raise e => Raise e
     end,
     State c.2.1 c.2.2 (calls s ++ [CheckerCall (check_args d)])).
Proof.
  intros Hf c.
  unfold _handle_check, load_global, payload_get, bind, ret, call_checker.
  rewrite Hf. fold (check_args d). subst c.
  destruct (call_positional f _ _ _ _ _ (globals s, world s))
    as [[result|e] [g w]]; done.
Qed.

Lemma handle_check_unbound (payload : pyval) (s : state) :
  globals s !! "multi_turn_checker" = None ->
  _handle_check payload s = (Raise (NameError "multi_turn_checker"), s).
Proof. intros Hf. unfold _handle_check, load_global, bind. by rewrite Hf. Qed.

(** C4, as the code has it: while the name [execute_multi_turn_func_call]
    is bound, the object bound to it is called once; it receives the
    truth values of the payload's [long_context] and [is_eval_run] (false
    when the field is absent, the field itself when it is a JSON boolean)
    under the keywords [long_context] and [is_evaL_run]; and the results
    it returns are the [results] field of the answer. *)
Theorem execute_forwards_flags (d : dict) (s : state) (f : Obj) :
  globals s !! "execute_multi_turn_func_call" = Some f ->
  let after := _handle_execute (PDict d) s in
  exists kwargs,
    calls after.2 = calls s ++ [EngineCall kwargs]
    /\ dict_get kwargs "long_context"
       = Some (PBool (truthy (dict_get_default d "long_context" (PBool false))))
    /\ dict_get kwargs "is_evaL_run"
       = Some (PBool (truthy (dict_get_default d "is_eval_run" (PBool false))))
    /\ (dict_get d "long_context" = None ->
        dict_get kwargs "long_context" = Some (PBool false))
    /\ (dict_get d "is_eval_run" = None ->
        dict_get kwargs "is_evaL_run" = Some (PBool false))
    /\ (forall b, dict_get d "long_context" = Some (PBool b) ->
                  dict_get kwargs "long_context" = Some (PBool b))
    /\ (forall b, dict_get d "is_eval_run" = Some (PBool b) ->
                  dict_get kwargs "is_evaL_run" = Some (PBool b))
    /\ match (call_keywords f kwargs (globals s, world s)).1 with
       | Return (results, _) => after.1 = Return [("results", results)]
       | Raise e => after.1 = Raise e
       end.
Proof.
  intros Hf after. subst after. rewrite (handle_execute_spec d s f Hf).
  eexists. split; [reflexivity |]. cbn [fst snd].
  split_and!; try done.
  - intros H. cbn. unfold dict_get_default. by rewrite H.
  - intros H. cbn. unfold dict_get_default. by rewrite H.
  - intros b H. cbn. unfold dict_get_default. by rewrite H.
  - intros b H. cbn. unfold dict_get_default. by rewrite H.
  - by destruct (call_keywords _ _ _) as [[[??]|?] ?].
Qed.

(** X15: while the names of the two collaborators are bound, an execute
    or check request (a JSON object) makes its handler call the bound
    object once, each argument being the payload's field or, when the
    field is absent, its fixed default; the handler fails only when that
    call does. *)
Theorem absent_fields_take_defaults (d : dict) (s : state) (f g : Obj) :
  globals s !! "execute_multi_turn_func_call" = Some f ->
  globals s !! "multi_turn_checker" = Some g ->
  let field key default := dict_get_default d key default in
  let kwargs :=
    [ ("func_call_list", field "func_call_list" (PList []));
      ("initial_config", field "initial_config" (PDict []));
      ("involved_classes", field "involved_classes" (PList []));
      ("model_name", field "model_name" (PStr "model"));
      ("test_entry_id", field "test_entry_id" (PStr ""));
      ("long_context", PBool (truthy (field "long_context" (PBool false))));
      ("is_evaL_run", PBool (truthy (field "is_eval_run" (PBool false)))) ] in
  let args :=
    [ field "model_results" (PList []);
      field "ground_truth" (PList []);
      field "test_entry" (PDict []);
      field "test_category" (PStr "");
      field "model_name" (PStr "model") ] in
  (forall key default, dict_get d key = None -> field key default = default)
  /\ calls (_handle_execute (PDict d) s).2 = calls s ++ [EngineCall kwargs]
  /\ (forall e, (_handle_execute (PDict d) s).1 = Raise e ->
        (call_keywords f kwargs (globals s, world s)).1 = Raise e)
  /\ calls (_handle_check (PDict d) s).2 = calls s ++ [CheckerCall args]
  /\ (forall e, (_handle_check (PDict d) s).1 = Raise e ->
        (call_positional g (field "model_results" (PList []))
           (field "ground_truth" (PList [])) (field "test_entry" (PDict []))
           (field "test_category" (PStr "")) (field "model_name" (PStr "model"))
           (globals s, world s)).1 = Raise e).
Proof.
  intros Hf Hg field kwargs args.
  rewrite (handle_execute_spec d s f Hf), (handle_check_spec d s g Hg).
  cbn [fst snd calls]. subst field kwargs args. cbv beta.
  split_and!.
  - intros key default H. unfold dict_get_default. by rewrite H.
  - done.
  - intros e.
    destruct (call_keywords _ _ _) as [[[??]|?] ?]; cbn; congruence.
  - done.
  - intros e.
    destruct (call_positional _ _ _ _ _ _ _) as [[?|?] ?]; cbn; congruence.
Qed.

End Handlers.

(** ** The request loop *)

Section Loop.
Context `{RT : Runtime}.

Lemma dict_get_set (r : dict) (key : string) (v : pyval) :
  dict_get (dict_set r key v) key = Some v.
Proof.
  induction r as [|[k w] r IH]; cbn.
  - by rewrite decide_True.
  - destruct (decide (k = key)) as [->|Hne]; cbn.
    + by rewrite decide_True.
    + by rewrite decide_False.
Qed.

Lemma strip_nonempty (line : string) : strip line <> "" -> line <> "".
Proof. by intros H ->. Qed.

(** A blank line is skipped: nothing is written and nothing changes. *)
Lemma blank_line_skipped (line : string) (L : loop) :
  blank line = true -> main_step line L = Next L.
Proof.
  intros Hb%strip_empty. unfold main_step.
  case_decide; [done |]. by rewrite decide_True.
Qed.

(** With a JSON object bound to [payload], the [except] clause builds
    its answer without failing. *)
Lemma except_clause_object (e : exn) (d : dict) (s : state) :
  except_clause e (Some (PDict d)) s
  = (Return [("id", dict_get_default d "id" PNone); ("error", PStr (str_exn e))], s).
Proof. done. Qed.

Lemma except_clause_unbound (e : exn) (s : state) :
  except_clause e None s
  = (Return [("id", PNone); ("error", PStr (str_exn e))], s).
Proof. done. Qed.

(** On an object, [dispatch] adds the echoed id to what it got. *)
Lemma dispatch_id (d r : dict) (s : state) :
  (dispatch (PDict d) s).1 = Return r ->
  dict_get r "id" = Some (dict_get_default d "id" PNone).
Proof.
  unfold dispatch, payload_get, bind, ret.
  destruct (HANDLERS_get _ s) as [[[h|]|e] s1]; [| |done].
  - destruct (h (PDict d) s1) as [[r'|e] s2]; [|done].
    cbn. intros [= <-]. apply dict_get_set.
  - cbn. by intros [= <-].
Qed.

(** One iteration on a line that parses as a request. *)
Lemma main_step_object (line : string) (d : dict) (L : loop) :
  parses_as_request line d ->
  main_step line L
  = Next (Loop (dispatch (PDict d) (st L)).2 (Some (PDict d))
            (out L ++ [match (dispatch (PDict d) (st L)).1 with
                       | Return response => response
                       | Raise e => [("id", dict_get_default d "id" PNone);
                                     ("error", PStr (str_exn e))]
                       end])).
Proof.
  intros [Hne Hloads]. unfold main_step.
  rewrite decide_False by by apply strip_nonempty.
  rewrite decide_False by done. rewrite Hloads.
  destruct (dispatch (PDict d) (st L)) as [[r|e] s]; [done |].
  by rewrite except_clause_object.
Qed.

(** X14: a line that parses to a JSON object is answered by exactly one
    response, which carries the echoed id; a failure raised while handling
    it (in the handler lookup, in the handler or in a collaborator)
    becomes the response [{id, error: str(e)}]; the iteration ends
    normally, so the loop goes on with the next line. *)
Theorem request_failure_is_reported (line : string) (d : dict) (L : loop) :
  parses_as_request line d ->
  let handled := dispatch (PDict d) (st L) in
  let id := dict_get_default d "id" PNone in
  exists response,
    main_step line L = Next (Loop handled.2 (Some (PDict d)) (out L ++ [response]))
    /\ dict_get response "id" = Some id
    /\ (forall e, handled.1 = Raise e ->
                  response = [("id", id); ("error", PStr (str_exn e))])
    /\ (forall r, handled.1 = Return r -> response = r)
    /\ (forall rest,
          main_loop (line :: rest) L
          = main_loop rest (Loop handled.2 (Some (PDict d)) (out L ++ [response]))).
Proof.
  intros Hreq handled id. pose proof (main_step_object line d L Hreq) as Hstep.
  fold handled id in Hstep.
  eexists. split; [exact Hstep |]. split_and!.
  - destruct handled.1 as [r|e] eqn:Hr; [|by cbn].
    by apply (dispatch_id d r (st L)).
  - by intros e ->.
  - by intros r ->.
  - intros rest. cbn [main_loop]. by rewrite Hstep.
Qed.

(** C7, as the code has it: a request whose action names none of the
    three handlers is answered without any handler being run and with
    the state left as it was.  When the action is absent or is a null, a
    boolean, a number or a string, the answer is
    [{error: "unknown action: " + str(action), id}]; when it is a list
    or an object, the lookup in [HANDLERS] raises and the answer is
    [{id, error}] with the message of that [TypeError]. *)
Theorem unknown_action_reported (line : string) (d : dict) (L : loop) :
  parses_as_request line d ->
  let action := dict_get_default d "action" PNone in
  let id := dict_get_default d "id" PNone in
  action <> PStr "execute" -> action <> PStr "check" -> action <> PStr "reset" ->
  main_step line L
  = Next (Loop (st L) (Some (PDict d))
            (out L ++ [if hashable action
                       then [("error", PStr ("unknown action: " +:+ str action));
                             ("id", id)]
                       else [("id", id);
                             ("error", PStr (str_exn (TypeError_unhashable action)))]])).
Proof.
  intros Hreq action id He Hc Hr.
  rewrite (main_step_object line d L Hreq).
  assert (Hd : dispatch (PDict d) (st L)
               = (if hashable action
                  then Return [("error", PStr ("unknown action: " +:+ str action));
                               ("id", id)]
                  else Raise (TypeError_unhashable action), st L)).
  { unfold dispatch, payload_get, bind, ret. fold action id.
    destruct action as [| | | |name| |] eqn:Ha; try done.
    unfold HANDLERS_get, ret. cbn [HANDLERS List.find fst].
    destruct (String.eqb_spec "execute" name) as [<-|_]; [done |].
    destruct (String.eqb_spec "check" name) as [<-|_]; [done |].
    destruct (String.eqb_spec "reset" name) as [<-|_]; [done |].
    done. }
  rewrite Hd. fold id. by destruct (hashable action).
Qed.

(** A malformed line is answered with a null id as long as no earlier
    line was parsed; the loop goes on. *)
Lemma malformed_first_line (line : string) (e : exn) (L : loop) :
  strip line <> "" -> json_loads (strip line) = Raise e ->
  payload_local L = None ->
  main_step line L
  = Next (Loop (st L) None (out L ++ [[("id", PNone); ("error", PStr (str_exn e))]])).
Proof.
  intros Hne Hloads Hunbound. unfold main_step.
  rewrite decide_False by by apply strip_nonempty.
  rewrite decide_False by done. by rewrite Hloads, Hunbound.
Qed.

(** After a parsed request the variable [payload] stays bound, and the
    answer to a malformed line echoes the id of that earlier request. *)
Lemma malformed_later_line (line : string) (e : exn) (d : dict) (L : loop) :
  strip line <> "" -> json_loads (strip line) = Raise e ->
  payload_local L = Some (PDict d) ->
  main_step line L
  = Next (Loop (st L) (Some (PDict d))
            (out L ++ [[("id", dict_get_default d "id" PNone);
                        ("error", PStr (str_exn e))]])).
Proof.
  intros Hne Hloads Hbound. unfold main_step.
  rewrite decide_False by by apply strip_nonempty.
  rewrite decide_False by done. by rewrite Hloads, Hbound.
Qed.

(** A line that parses to a JSON value other than an object ends [main]:
    the [except] clause calls [payload.get] on it and nothing catches
    the [AttributeError]; no response is written. *)
Lemma non_object_line_crashes (line : string) (v : pyval) (L : loop) :
  strip line <> "" -> json_loads (strip line) = Return v ->
  (forall d, v <> PDict d) ->
  main_step line L
  = Crash (AttributeError v "get") (Loop (st L) (Some v) (out L)).
Proof.
  intros Hne Hloads Hv. unfold main_step.
  rewrite decide_False by by apply strip_nonempty.
  rewrite decide_False by done. rewrite Hloads.
  destruct v; try done. by destruct (Hv d).
Qed.

(** On a stream of answerable lines [main] reaches the end of the
    input, keeps what was written, and writes one response for each line
    that is not blank. *)
Lemma main_loop_answers (lines : list string) (L : loop) :
  Forall answerable lines -> payload_is_object L ->
  exists L' rs,
    main_loop lines L = Next L'
    /\ out L' = out L ++ rs
    /\ length rs = length (requests lines).
Proof.
  intros Hall. revert L.
  induction Hall as [|line lines Hline _ IH]; intros L HL.
  - exists L, []. by rewrite app_nil_r.
  - cbn [main_loop]. unfold requests. rewrite filter_cons.
    destruct (blank line) eqn:Hb.
    + rewrite blank_line_skipped by done. rewrite decide_False by done.
      by apply IH.
    + rewrite decide_True by done.
      assert (Hne : strip line <> "").
      { intros H%strip_empty. congruence. }
      destruct Hline as [?|Hline]; [congruence |].
      destruct (json_loads (strip line)) as [v|e] eqn:Hloads.
      * destruct v as [| | | | | |d]; try done.
        rewrite (main_step_object line d L) by done.
        edestruct IH as (L' & rs & -> & Hout & Hlen); [done |].
        exists L'. eexists (_ :: rs). split; [done |].
        split; [| by cbn; rewrite Hlen].
        rewrite Hout. cbn [out]. by rewrite <- app_assoc.
      * unfold payload_is_object in HL.
        destruct (payload_local L) as [[| | | | | |d]|] eqn:Hp; try done.
        -- rewrite (malformed_later_line line e d L) by done.
           edestruct IH as (L' & rs & -> & Hout & Hlen);
             [by unfold payload_is_object |].
           exists L'. eexists (_ :: rs). split; [done |].
           split; [| by cbn; rewrite Hlen].
           rewrite Hout. cbn [out]. by rewrite <- app_assoc.
        -- rewrite (malformed_first_line line e L) by done.
           edestruct IH as (L' & rs & -> & Hout & Hlen);
             [by unfold payload_is_object |].
           exists L'. eexists (_ :: rs). split; [done |].
           split; [| by cbn; rewrite Hlen].
           rewrite Hout. cbn [out]. by rewrite <- app_assoc.
Qed.

End Loop.

(** ** The properties at concrete requests *)

(** C2: [{"id": 7, "action": "reset"}] followed by [{not json].  The second
    line does not parse, yet its answer carries the id 7 of the first
    request instead of null: the variable [payload] is still bound when the
    [except] clause tests for it. *)
Theorem malformed_line_echoes_stale_id :
  main [Sample.line_reset7 +:+ Sample.nl; Sample.line_not_json +:+ Sample.nl]
       Sample.start
  = Next (Loop Sample.start
            (Some (PDict [("id", PInt 7); ("action", PStr "reset")]))
            [ [("reset", PBool true); ("id", PInt 7)];
              [("id", PInt 7); ("error", PStr (str_exn Sample.JSONDecodeError))] ]).
Proof. reflexivity. Qed.

(** C5: [5] followed by [{"id": 7, "action": "reset"}].  The first line is
    not blank and parses to a number; [main] ends on an uncaught
    [AttributeError] with nothing written, and the second line is never
    read. *)
Theorem non_object_line_ends_main :
  main [Sample.line_five +:+ Sample.nl; Sample.line_reset7 +:+ Sample.nl]
       Sample.start
  = Crash (AttributeError (PInt 5) "get")
          (Loop Sample.start (Some (PInt 5)) []).
Proof. reflexivity. Qed.

(** C1: [{"id": 3, "action": "frobnicate"}], then [[1, 2]], then
    [{"id": 7, "action": "reset"}].  The second line parses, to a list;
    the [AttributeError] that [payload.get] raises while it is handled is
    caught, but the [except] clause raises it again: the failure is not
    turned into a response and [main] ends without reading the third
    line. *)
Theorem parsed_list_line_is_not_reported :
  main [ Sample.line_unknown +:+ Sample.nl; Sample2.line_array +:+ Sample.nl;
         Sample.line_reset7 +:+ Sample.nl ]
       Sample2.start
  = Crash (AttributeError (PList [PInt 1; PInt 2]) "get")
          (Loop Sample2.start (Some (PList [PInt 1; PInt 2]))
             [ [("error", PStr "unknown action: frobnicate"); ("id", PInt 3)] ]).
Proof. reflexivity. Qed.

(** C8: the same check request, before and after the reset
    [{"id": 10, "action": "reset", "model_name": "multi",
      "test_entry_id": "turn"}].
    The reset deletes the name [multi_turn_checker], which starts with the
    prefix [multi_turn_]; the second check is answered with the
    [NameError] instead of the checker's verdict, and the checker is
    called once, not twice. *)
Theorem check_after_reset_has_no_verdict :
  main [ Sample2.line_check +:+ Sample.nl;
         Sample2.line_reset_multi_turn +:+ Sample.nl;
         Sample2.line_check +:+ Sample.nl ]
       Sample2.start
  = Next (Loop (@State Sample2.runtime
                  {[ "execute_multi_turn_func_call" := Sample.engine_function ]} tt
                  [CheckerCall (check_args Sample2.payload_check)])
            (Some (PDict Sample2.payload_check))
            [ [("result", PDict [("valid", PBool true)]); ("id", PInt 4)];
              [("reset", PBool true); ("id", PInt 10)];
              [("id", PInt 4);
               ("error", PStr "name 'multi_turn_checker' is not defined")] ]).
Proof. reflexivity. Qed.

(** C10: [{"id": 8, "action": "reset", "model_name": "execute",
           "test_entry_id": "multi"}], then [{"id": 9, "action": "execute"}].
    The reset deletes the name [execute_multi_turn_func_call]; the execute
    request, whose fields are all absent, is then answered with the
    [NameError] and the engine is not called. *)
Theorem execute_after_reset_makes_no_call :
  main [ Sample2.line_reset_execute_multi +:+ Sample.nl;
         Sample2.line_execute_bare +:+ Sample.nl ]
       Sample2.start
  = Next (Loop (@State Sample2.runtime
                  {[ "multi_turn_checker" := Sample.checker_function ]} tt [])
            (Some (PDict Sample2.payload_execute_bare))
            [ [("reset", PBool true); ("id", PInt 8)];
              [("id", PInt 9);
               ("error",
                PStr "name 'execute_multi_turn_func_call' is not defined")] ]).
Proof. reflexivity. Qed.

(** C3 fails as stated: a reset for the Session Key (a, b) removes the
    entry cached for the other Session Key (a_b, c), whose name starts
    with the prefix [a_b_] as well. *)
Lemma reset_removes_entry_of_other_session :
  let d := [("action", PStr "reset"); ("model_name", PStr "a");
            ("test_entry_id", PStr "b")] in
  let name := "a_b_c_TradingBot_instance" in
  let s' := (_handle_reset (PDict d) Sample.one_cached).2 in
  belongs_to (RT := Sample.runtime) name (PStr "a_b", PStr "c") = true
  /\ (PStr "a_b", PStr "c") <> (PStr "a", PStr "b")
  /\ globals Sample.one_cached !! name = Some "TradingBot()"
  /\ globals s' !! name = None.
Proof. split_and!; [by vm_compute | congruence | by vm_compute..]. Qed.

(** C4 fails as stated: the engine is not given the payload's fields as
    they are but their truth values, and no argument of the call is named
    [is_eval_run]. *)
Lemma execute_converts_flags :
  let d := [("action", PStr "execute"); ("long_context", PStr "yes");
            ("is_eval_run", PInt 1)] in
  let after := _handle_execute (PDict d) Sample.imported in
  calls after.2
  = [EngineCall [ ("func_call_list", PList []); ("initial_config", PDict []);
                  ("involved_classes", PList []); ("model_name", PStr "model");
                  ("test_entry_id", PStr ""); ("long_context", PBool true);
                  ("is_evaL_run", PBool true) ]]
  /\ dict_get d "long_context" = Some (PStr "yes")
  /\ dict_get d "is_eval_run" = Some (PInt 1)
  /\ after.1 = Return [("results", PList [])].
Proof. split_and!; by vm_compute. Qed.

Lemma execute_forwards_flags_witness :
  let d := [("action", PStr "execute"); ("long_context", PStr "yes");
            ("is_eval_run", PBool false)] in
  let after := _handle_execute (PDict d) Sample.imported in
  globals Sample.imported !! "execute_multi_turn_func_call"
  = Some Sample.engine_function
  /\ exists kwargs,
       calls after.2 = calls Sample.imported ++ [EngineCall kwargs]
       /\ dict_get kwargs "long_context" = Some (PBool true)
       /\ dict_get kwargs "is_evaL_run" = Some (PBool false)
       /\ after.1 = Return [("results", PList [])].
Proof.
  intros d after.
  assert (Hf : globals Sample.imported !! "execute_multi_turn_func_call"
               = Some Sample.engine_function) by by vm_compute.
  split; [exact Hf |].
  destruct (execute_forwards_flags d Sample.imported Sample.engine_function Hf)
    as (kwargs & Hcalls & Hlc & Her & _ & _ & _ & _ & Hres).
  exists kwargs. split_and!; [exact Hcalls | exact Hlc | exact Her |].
  clear Hlc Her. subst after.
  rewrite (handle_execute_spec d Sample.imported Sample.engine_function Hf).
  by vm_compute.
Defined.

(** C7 fails as stated: [{"id": 1, "action": []}] names no handler, and
    its answer is the message of the [TypeError] that the lookup in
    [HANDLERS] raises, not an unknown-action message. *)
Lemma unhashable_action_is_a_type_error :
  main [Sample.line_action_list +:+ Sample.nl] Sample.start
  = Next (Loop Sample.start
            (Some (PDict [("id", PInt 1); ("action", PList [])]))
            [ [("id", PInt 1); ("error", PStr "unhashable type: 'list'")] ])
  /\ startswith "unhashable type: 'list'" "unknown action: " = false.
Proof. split; reflexivity. Qed.

Lemma request_failure_is_reported_witness :
  let line := Sample.line_no_such_api +:+ Sample.nl in
  let d := [("id", PInt 2); ("action", PStr "execute");
            ("involved_classes", PList [PStr "NoSuchAPI"])] in
  let L := Loop Sample.imported None [] in
  let handled := dispatch (PDict d) (st L) in
  let id := dict_get_default d "id" PNone in
  parses_as_request (RT := Sample.runtime) line d
  /\ handled.1 = Raise (KeyError "'NoSuchAPI'")
  /\ exists response,
       main_step line L = Next (Loop handled.2 (Some (PDict d)) (out L ++ [response]))
       /\ dict_get response "id" = Some id
       /\ (forall e, handled.1 = Raise e ->
                     response = [("id", id); ("error", PStr (str_exn e))])
       /\ (forall r, handled.1 = Return r -> response = r)
       /\ (forall rest,
             main_loop (line :: rest) L
             = main_loop rest (Loop handled.2 (Some (PDict d)) (out L ++ [response]))).
Proof.
  intros line d L handled id.
  assert (Hreq : parses_as_request (RT := Sample.runtime) line d).
  { split; [by vm_compute | by vm_compute]. }
  split; [exact Hreq |]. split; [by vm_compute |].
  exact (request_failure_is_reported line d L Hreq).
Defined.

Lemma reset_removes_prefix_matches_witness :
  let d := [("action", PStr "reset"); ("model_name", PStr "a_b");
            ("test_entry_id", PStr "c")] in
  let m := PStr "a_b" in
  let t := PStr "c" in
  let s' := (_handle_reset (PDict d) Sample.one_cached).2 in
  (dict_get d "model_name" = Some m /\ dict_get d "test_entry_id" = Some t
   /\ truthy m = true /\ truthy t = true)
  /\ (forall k, startswith k (session_prefix (RT := Sample.runtime) m t) = true -> globals s' !! k = None)
  /\ (forall k, startswith k (session_prefix (RT := Sample.runtime) m t) = false ->
                globals s' !! k = globals Sample.one_cached !! k)
  /\ world s' = world Sample.one_cached
  /\ calls s' = calls Sample.one_cached.
Proof.
  intros d m t s'. split; [done |].
  exact (reset_removes_prefix_matches d Sample.one_cached m t
           eq_refl eq_refl eq_refl eq_refl).
Defined.

Lemma unknown_action_reported_witness :
  let line := Sample.line_unknown +:+ Sample.nl in
  let d := [("id", PInt 3); ("action", PStr "frobnicate")] in
  let L := Loop Sample.start None [] in
  parses_as_request (RT := Sample.runtime) line d
  /\ main_step line L
     = Next (Loop Sample.start (Some (PDict d))
               [[("error", PStr "unknown action: frobnicate"); ("id", PInt 3)]]).
Proof.
  intros line d L.
  assert (Hreq : parses_as_request (RT := Sample.runtime) line d).
  { split; by vm_compute. }
  split; [exact Hreq |].
  exact (unknown_action_reported line d L Hreq
           ltac:(discriminate) ltac:(discriminate) ltac:(discriminate)).
Defined.


(** * Further properties of the code *)

(** ** reset, continued *)

(** Two prefixes of one name are comparable. *)
Lemma startswith_comparable (k p q : string) :
  startswith k p = true -> startswith k q = true ->
  startswith p q = true \/ startswith q p = true.
Proof.
  revert k q; induction p as [|b p IH]; intros k q Hp Hq.
  - right. by destruct q.
  - destruct q as [|c q]; [by left |].
    destruct k as [|a k]; [done |]. cbn in Hp, Hq |- *.
    destruct (decide (a = b)) as [->|]; [|done].
    destruct (decide (b = c)) as [->|]; [|done].
    rewrite !decide_True by done. by apply (IH k).
Qed.

Section ResetMore.
Context `{RT : Runtime}.

(** X1: a reset only ever removes bindings: every name bound afterwards
    was bound before, to the same object; it makes no call to a
    collaborator and leaves their state alone. *)
Theorem reset_only_removes (d : dict) (s : state) :
  let s' := (_handle_reset (PDict d) s).2 in
  globals s' ⊆ globals s /\ world s' = world s /\ calls s' = calls s.
Proof.
  intros s'. destruct (handle_reset_spec d s) as (g & Hr & Hg).
  subst s'. rewrite Hr. cbn. split; [|done].
  apply map_subseteq_spec. intros k o. rewrite Hg. by case_match.
Qed.

(** X2: resets commute: two reset requests leave the same state in either
    order. *)
Theorem reset_commutes (d1 d2 : dict) (s : state) :
  (_handle_reset (PDict d2) (_handle_reset (PDict d1) s).2).2
  = (_handle_reset (PDict d1) (_handle_reset (PDict d2) s).2).2.
Proof.
  destruct (handle_reset_spec d1 s) as (g1 & Hr1 & Hg1).
  destruct (handle_reset_spec d2 s) as (g2 & Hr2 & Hg2).
  rewrite Hr1, Hr2. cbn [snd].
  destruct (handle_reset_spec d2 (State g1 (world s) (calls s))) as (g12 & -> & Hg12).
  destruct (handle_reset_spec d1 (State g2 (world s) (calls s))) as (g21 & -> & Hg21).
  cbn [globals world calls snd] in *. f_equal. apply map_eq. intros k.
  rewrite Hg12, Hg21, Hg1, Hg2.
  by repeat case_match.
Qed.

(** X3: a reset for one Session Key keeps every entry of another Session
    Key as it was, provided neither derived prefix starts with the
    other. *)
Theorem reset_keeps_incomparable_session (d : dict) (s : state) (m' t' : pyval) :
  let m := dict_get_default d "model_name" PNone in
  let t := dict_get_default d "test_entry_id" PNone in
  startswith (session_prefix m t) (session_prefix m' t') = false ->
  startswith (session_prefix m' t') (session_prefix m t) = false ->
  forall name,
    belongs_to name (m', t') = true ->
    globals (_handle_reset (PDict d) s).2 !! name = globals s !! name.
Proof.
  intros m t Hpq Hqp name Hname. unfold belongs_to in Hname. cbn [fst snd] in Hname.
  destruct (handle_reset_spec d s) as (g & Hr & Hg). fold m t in Hg.
  rewrite Hr. cbn [snd globals]. rewrite Hg.
  destruct (startswith name (session_prefix m t)) eqn:Hk.
  - destruct (startswith_comparable name _ _ Hk Hname); congruence.
  - by rewrite andb_false_r.
Qed.

End ResetMore.

Lemma reset_keeps_incomparable_session_witness :
  let d := [("action", PStr "reset"); ("model_name", PStr "a_b");
            ("test_entry_id", PStr "d")] in
  let name := "a_b_c_TradingBot_instance" in
  (startswith (session_prefix (RT := Sample.runtime) (PStr "a_b") (PStr "d"))
              (session_prefix (RT := Sample.runtime) (PStr "a_b") (PStr "c")) = false
   /\ startswith (session_prefix (RT := Sample.runtime) (PStr "a_b") (PStr "c"))
                 (session_prefix (RT := Sample.runtime) (PStr "a_b") (PStr "d")) = false
   /\ belongs_to (RT := Sample.runtime) name (PStr "a_b", PStr "c") = true)
  /\ globals (_handle_reset (PDict d) Sample.one_cached).2 !! name
     = globals Sample.one_cached !! name.
Proof.
  intros d name. split; [by vm_compute |].
  exact (reset_keeps_incomparable_session d Sample.one_cached (PStr "a_b") (PStr "c")
           eq_refl eq_refl name eq_refl).
Defined.

(** ** Requests, end to end *)

Section Requests.
Context `{RT : Runtime}.

Lemma HANDLERS_get_other (name : string) (s : state) :
  name <> "execute" -> name <> "check" -> name <> "reset" ->
  HANDLERS_get (PStr name) s = (Return None, s).
Proof.
  intros He Hc Hr. unfold HANDLERS_get, ret. cbn [HANDLERS List.find fst].
  destruct (String.eqb_spec "execute" name) as [<-|_]; [done |].
  destruct (String.eqb_spec "check" name) as [<-|_]; [done |].
  by destruct (String.eqb_spec "reset" name) as [<-|_].
Qed.

(** What [dispatch] does with an execute request while the name of the
    engine is bound. *)
Lemma dispatch_execute (d : dict) (s : state) (f : Obj) :
  dict_get_default d "action" PNone = PStr "execute" ->
  globals s !! "execute_multi_turn_func_call" = Some f ->
  let c := call_keywords f (execute_kwargs d) (globals s, world s) in
  dispatch (PDict d) s
  = (match c.1 with
     | Return (results, _) =>
         Return [("results", results); ("id", dict_get_default d "id" PNone)]
     | Raise e => Raise e
     end,
     State c.2.1 c.2.2 (calls s ++ [EngineCall (execute_kwargs d)])).
Proof.
  intros Ha Hf c. unfold dispatch, payload_get, bind, ret. rewrite Ha.
  change (HANDLERS_get (PStr "execute") s) with (Return (Some _handle_execute), s).
  cbv iota beta. rewrite (handle_execute_spec d s f Hf). fold c.
  by destruct c.1 as [[results inst]|e].
Qed.

Lemma dispatch_execute_unbound (d : dict) (s : state) :
  dict_get_default d "action" PNone = PStr "execute" ->
  globals s !! "execute_multi_turn_func_call" = None ->
  dispatch (PDict d) s = (Raise (NameError "execute_multi_turn_func_call"), s).
Proof.
  intros Ha Hf. unfold dispatch, payload_get, bind, ret. rewrite Ha.
  change (HANDLERS_get (PStr "execute") s) with (Return (Some _handle_execute), s).
  cbv iota beta. by rewrite handle_execute_unbound.
Qed.

(** What [dispatch] does with a check request while the name of the
    checker is bound. *)
Lemma dispatch_check (d : dict) (s : state) (f : Obj) :
  dict_get_default d "action" PNone = PStr "check" ->
  globals s !! "multi_turn_checker" = Some f ->
  let c := call_positional f
             (dict_get_default d "model_results" (PList []))
             (dict_get_default d "ground_truth" (PList []))
             (dict_get_default d "test_entry" (PDict []))
             (dict_get_default d "test_category" (PStr ""))
             (dict_get_default d "model_name" (PStr "model"))
             (globals s, world s) in
  dispatch (PDict d) s
  = (match c.1 with
     | Return result =>
         Return [("result", result); ("id", dict_get_default d "id" PNone)]
     | Raise e => Raise e
     end,
     State c.2.1 c.2.2 (calls s ++ [CheckerCall (check_args d)])).
Proof.
  intros Ha Hf c. unfold dispatch, payload_get, bind, ret. rewrite Ha.
  change (HANDLERS_get (PStr "check") s) with (Return (Some _handle_check), s).
  cbv iota beta. rewrite (handle_check_spec d s f Hf). fold c.
  by destruct c.1 as [result|e].
Qed.

Lemma dispatch_check_unbound (d : dict) (s : state) :
  dict_get_default d "action" PNone = PStr "check" ->
  globals s !! "multi_turn_checker" = None ->
  dispatch (PDict d) s = (Raise (NameError "multi_turn_checker"), s).
Proof.
  intros Ha Hf. unfold dispatch, payload_get, bind, ret. rewrite Ha.
  change (HANDLERS_get (PStr "check") s) with (Return (Some _handle_check), s).
  cbv iota beta. by rewrite handle_check_unbound.
Qed.

(** What [dispatch] does with a reset request. *)
Lemma dispatch_reset (d : dict) (s : state) :
  dict_get_default d "action" PNone = PStr "reset" ->
  dispatch (PDict d) s
  = (Return [("reset", PBool true); ("id", dict_get_default d "id" PNone)],
     (_handle_reset (PDict d) s).2).
Proof.
  intros Ha. unfold dispatch, payload_get, bind, ret. rewrite Ha.
  change (HANDLERS_get (PStr "reset") s) with (Return (Some _handle_reset), s).
  cbv iota beta.
  destruct (handle_reset_spec d s) as (g & Hr & _).
  unfold payload_get, ret in Hr. by rewrite Hr.
Qed.

(** What [dispatch] does when the action names no handler. *)
Lemma dispatch_unknown (d : dict) (s : state) :
  let action := dict_get_default d "action" PNone in
  action <> PStr "execute" -> action <> PStr "check" -> action <> PStr "reset" ->
  dispatch (PDict d) s
  = (if hashable action
     then Return [("error", PStr ("unknown action: " +:+ str action));
                  ("id", dict_get_default d "id" PNone)]
     else Raise (TypeError_unhashable action), s).
Proof.
  intros action He Hc Hr. unfold dispatch, payload_get, bind, ret. fold action.
  destruct action as [| | | |name| |] eqn:Ha; try done.
  rewrite HANDLERS_get_other by congruence. done.
Qed.

(** The four cases cover every action. *)
Lemma action_cases (v : pyval) :
  v = PStr "execute" \/ v = PStr "check" \/ v = PStr "reset"
  \/ (v <> PStr "execute" /\ v <> PStr "check" /\ v <> PStr "reset").
Proof.
  destruct v as [| | | |name| |]; try (right; right; right; by split_and!).
  destruct (decide (name = "execute")) as [->|]; [by left |].
  destruct (decide (name = "check")) as [->|]; [by right; left |].
  destruct (decide (name = "reset")) as [->|]; [by right; right; left |].
  right; right; right. split_and!; congruence.
Qed.

(** X4: a reset request is always answered [{reset: true, id}], whatever
    its other fields are, and the state it leaves is the one
    [_handle_reset] gives. *)
Theorem reset_request_answered (line : string) (d : dict) (L : loop) :
  parses_as_request line d ->
  dict_get_default d "action" PNone = PStr "reset" ->
  main_step line L
  = Next (Loop (_handle_reset (PDict d) (st L)).2 (Some (PDict d))
            (out L ++ [[("reset", PBool true);
                        ("id", dict_get_default d "id" PNone)]])).
Proof.
  intros Hreq Ha. rewrite (main_step_object line d L Hreq).
  by rewrite dispatch_reset.
Qed.

(** X5: while the name of the engine is bound, an execute request is
    answered [{results, id}] with the results the call returned, or
    [{id, error}] with the message of the exception it raised; in both
    cases the state is the one the call left, with nothing undone after a
    failure. *)
Theorem execute_request_answered (line : string) (d : dict) (L : loop) (f : Obj) :
  parses_as_request line d ->
  dict_get_default d "action" PNone = PStr "execute" ->
  globals (st L) !! "execute_multi_turn_func_call" = Some f ->
  let id := dict_get_default d "id" PNone in
  let c := call_keywords f (execute_kwargs d) (globals (st L), world (st L)) in
  main_step line L
  = Next (Loop (State c.2.1 c.2.2 (calls (st L) ++ [EngineCall (execute_kwargs d)]))
            (Some (PDict d))
            (out L ++ [match c.1 with
                       | Return (results, _) => [("results", results); ("id", id)]
                       | Raise e => [("id", id); ("error", PStr (str_exn e))]
                       end])).
Proof.
  intros Hreq Ha Hf id c. rewrite (main_step_object line d L Hreq).
  rewrite (dispatch_execute d (st L) f) by done. fold c id. cbn [fst snd].
  by destruct c.1 as [[results inst]|e].
Qed.

(** X6: while the name of the checker is bound, a check request is
    answered [{result, id}] with the verdict the call returned, or
    [{id, error}] with the message of the exception it raised; the state
    is the one the call left. *)
Theorem check_request_answered (line : string) (d : dict) (L : loop) (f : Obj) :
  parses_as_request line d ->
  dict_get_default d "action" PNone = PStr "check" ->
  globals (st L) !! "multi_turn_checker" = Some f ->
  let id := dict_get_default d "id" PNone in
  let c := call_positional f
             (dict_get_default d "model_results" (PList []))
             (dict_get_default d "ground_truth" (PList []))
             (dict_get_default d "test_entry" (PDict []))
             (dict_get_default d "test_category" (PStr ""))
             (dict_get_default d "model_name" (PStr "model"))
             (globals (st L), world (st L)) in
  main_step line L
  = Next (Loop (State c.2.1 c.2.2 (calls (st L) ++ [CheckerCall (check_args d)]))
            (Some (PDict d))
            (out L ++ [match c.1 with
                       | Return result => [("result", result); ("id", id)]
                       | Raise e => [("id", id); ("error", PStr (str_exn e))]
                       end])).
Proof.
  intros Hreq Ha Hf id c. rewrite (main_step_object line d L Hreq).
  rewrite (dispatch_check d (st L) f) by done. fold c id. cbn [fst snd].
  by destruct c.1 as [result|e].
Qed.

(** X7: handling a request makes at most one call: the one of line 15
    for [execute] when the name of the engine is bound, the one of line
    28 for [check] when the name of the checker is bound, and none
    otherwise: not when the name is unbound, and not for a reset, an
    unknown action or an action that cannot be looked up. *)
Theorem one_call_per_request (d : dict) (s : state) :
  calls (dispatch (PDict d) s).2 = calls s ++ collaborator_calls d s.
Proof.
  unfold collaborator_calls.
  destruct (action_cases (dict_get_default d "action" PNone))
    as [Ha|[Ha|[Ha|(He & Hc & Hr)]]].
  - rewrite Ha. change (String.eqb "execute" "execute") with true. cbv iota.
    destruct (globals s !! "execute_multi_turn_func_call") as [f|] eqn:Hf.
    + by rewrite (dispatch_execute d s f).
    + rewrite dispatch_execute_unbound by done. by rewrite app_nil_r.
  - rewrite Ha. change (String.eqb "check" "execute") with false.
    change (String.eqb "check" "check") with true. cbv iota.
    destruct (globals s !! "multi_turn_checker") as [f|] eqn:Hf.
    + by rewrite (dispatch_check d s f).
    + rewrite dispatch_check_unbound by done. by rewrite app_nil_r.
  - rewrite dispatch_reset by done. rewrite Ha. cbn [snd].
    destruct (handle_reset_spec d s) as (g & -> & _). cbn [snd calls].
    change (String.eqb "reset" "execute") with false.
    change (String.eqb "reset" "check") with false.
    by rewrite app_nil_r.
  - rewrite dispatch_unknown by done. cbn [snd].
    destruct (dict_get_default d "action" PNone) as [| | | |name| |];
      try by rewrite app_nil_r.
    destruct (String.eqb_spec name "execute") as [->|_]; [done |].
    destruct (String.eqb_spec name "check") as [->|_]; [done |].
    by rewrite app_nil_r.
Qed.

(** The shape of what [dispatch] returns on an object. *)
Lemma dispatch_shape (d r : dict) (s : state) :
  (dispatch (PDict d) s).1 = Return r ->
  exists kind v, kind ∈ response_kinds
                 /\ r = [(kind, v); ("id", dict_get_default d "id" PNone)].
Proof.
  unfold response_kinds.
  destruct (action_cases (dict_get_default d "action" PNone))
    as [Ha|[Ha|[Ha|(He & Hc & Hr)]]].
  - destruct (globals s !! "execute_multi_turn_func_call") as [f|] eqn:Hf.
    + rewrite (dispatch_execute d s f) by done. cbn [fst].
      destruct (call_keywords _ _ _).1 as [[results inst]|e]; [|done].
      intros [= <-]. exists "results", results. split; [set_solver | done].
    + by rewrite dispatch_execute_unbound.
  - destruct (globals s !! "multi_turn_checker") as [f|] eqn:Hf.
    + rewrite (dispatch_check d s f) by done. cbn [fst].
      destruct (call_positional _ _ _ _ _ _ _).1 as [result|e]; [|done].
      intros [= <-]. exists "result", result. split; [set_solver | done].
    + by rewrite dispatch_check_unbound.
  - rewrite dispatch_reset by done. intros [= <-].
    exists "reset", (PBool true). split; [set_solver | done].
  - rewrite dispatch_unknown by done. cbn [fst].
    destruct (hashable _); [|done]. intros [= <-].
    eexists "error", _. split; [set_solver | done].
Qed.

End Requests.

(** ** The stream, line by line *)

Section Stream.
Context `{RT : Runtime}.

Lemma well_formed_kind_first (kind : string) (v id : pyval) :
  kind ∈ response_kinds -> well_formed_response [(kind, v); ("id", id)].
Proof.
  intros Hk. split_and!; [done | | exists kind; split; [done |]].
  - cbn. case_decide; [by eexists |]. rewrite decide_True by done. by eexists.
  - cbn. rewrite decide_True by done. by eexists.
Qed.

Lemma well_formed_error (id : pyval) (msg : string) :
  well_formed_response [("id", id); ("error", PStr msg)].
Proof.
  split_and!; [done | by eexists |].
  exists "error". split; [unfold response_kinds; set_solver | by eexists].
Qed.

(** X8: what one line does to the output.  A blank line changes nothing.
    Any other line either adds exactly one response, which has an [id]
    field and one field among [results], [result], [reset] and [error],
    or ends [main] with the output as it was. *)
Theorem line_outcome (line : string) (L : loop) :
  match main_step line L with
  | Next L' =>
      if blank line then L' = L
      else exists r, out L' = out L ++ [r] /\ well_formed_response r
  | Crash _ L' => blank line = false /\ out L' = out L
  end.
Proof.
  destruct (blank line) eqn:Hb.
  { by rewrite blank_line_skipped. }
  assert (Hne : strip line <> "").
  { intros H%strip_empty. congruence. }
  unfold main_step.
  rewrite decide_False by by apply strip_nonempty.
  rewrite decide_False by done.
  destruct (json_loads (strip line)) as [v|e].
  - destruct (dispatch v (st L)) as [[r|e] s] eqn:Hd.
    + exists r. split; [done |].
      destruct v as [| | | | | |d]; try done.
      destruct (dispatch_shape d r (st L)) as (kind & w & Hk & ->);
        [by rewrite Hd |].
      by apply well_formed_kind_first.
    + destruct v as [| | | | | |d]; try done.
      rewrite except_clause_object. eexists. split; [done |].
      apply well_formed_error.
  - destruct (payload_local L) as [[| | | | | |d]|]; try done.
    + rewrite except_clause_object. eexists. split; [done |].
      apply well_formed_error.
    + rewrite except_clause_unbound. eexists. split; [done |].
      apply well_formed_error.
Qed.

(** X9: a line that does not parse is answered [{id, error}] with the
    message of the decoder; the id is the one of the latest line that
    parsed to an object, null when there is none; the state is left as it
    was. *)
Theorem malformed_line_answer (line : string) (e : exn) (L : loop) :
  strip line <> "" -> json_loads (strip line) = Raise e ->
  payload_is_object L ->
  main_step line L
  = Next (Loop (st L) (payload_local L)
            (out L ++ [[("id", bound_id L); ("error", PStr (str_exn e))]])).
Proof.
  intros Hne Hloads HL. unfold payload_is_object in HL. unfold bound_id.
  destruct (payload_local L) as [[| | | | | |d]|] eqn:Hp; try done.
  - by rewrite (malformed_later_line line e d L).
  - by rewrite (malformed_first_line line e L).
Qed.

Lemma answerable_dec (line : string) : answerable line \/ ~ answerable line.
Proof.
  unfold answerable. destruct (blank line); [by left; left |].
  destruct (json_loads (strip line)) as [[| | | | | |d]|e];
    try (by left; right); right; by intros [|].
Qed.

Lemma main_step_answerable (line : string) (L : loop) :
  answerable line -> payload_is_object L ->
  exists L1,
    main_step line L = Next L1
    /\ payload_is_object L1
    /\ length (out L1) = length (out L) + length (requests [line]).
Proof.
  intros Hline HL. unfold requests. rewrite filter_cons, filter_nil.
  destruct (blank line) eqn:Hb.
  { rewrite blank_line_skipped, decide_False by done.
    exists L. split_and!; [done.. | cbn; lia]. }
  rewrite decide_True by done.
  assert (Hne : strip line <> "").
  { intros H%strip_empty. congruence. }
  destruct Hline as [?|Hline]; [congruence |].
  destruct (json_loads (strip line)) as [v|e] eqn:Hloads.
  - destruct v as [| | | | | |d]; try done.
    rewrite (main_step_object line d L) by done.
    eexists. split_and!; [done.. |]. cbn. rewrite length_app. cbn. lia.
  - rewrite (malformed_line_answer line e L) by done.
    eexists. split_and!; [done.. |]. cbn. rewrite length_app. cbn. lia.
Qed.

Lemma main_step_unanswerable (line : string) (L : loop) :
  ~ answerable line ->
  exists v,
    json_loads (strip line) = Return v
    /\ main_step line L = Crash (AttributeError v "get") (Loop (st L) (Some v) (out L)).
Proof.
  unfold answerable. intros Hline.
  destruct (blank line) eqn:Hb; [by destruct Hline; left |].
  assert (Hne : strip line <> "").
  { intros H%strip_empty. congruence. }
  destruct (json_loads (strip line)) as [v|e] eqn:Hloads; [|by destruct Hline; right].
  exists v. split; [done |].
  apply non_object_line_crashes; [done.. |].
  intros d ->. by destruct Hline; right.
Qed.

Lemma requests_app (l1 l2 : list string) : requests (l1 ++ l2) = requests l1 ++ requests l2.
Proof. apply filter_app. Qed.

Lemma main_loop_app (pre rest : list string) (L : loop) :
  main_loop (pre ++ rest) L
  = match main_loop pre L with
    | Next L1 => main_loop rest L1
    | Crash e L' => Crash e L'
    end.
Proof.
  revert L; induction pre as [|line pre IH]; intros L; [done |].
  cbn [app main_loop]. by destruct (main_step line L).
Qed.

Lemma main_loop_answerable (lines : list string) (L : loop) :
  Forall answerable lines -> payload_is_object L ->
  exists L',
    main_loop lines L = Next L'
    /\ payload_is_object L'
    /\ length (out L') = length (out L) + length (requests lines).
Proof.
  intros Hall. revert L.
  induction Hall as [|line lines Hline _ IH]; intros L HL.
  - exists L. split_and!; [done.. | cbn; lia].
  - destruct (main_step_answerable line L Hline HL) as (L1 & Hstep & HL1 & Hlen1).
    destruct (IH L1 HL1) as (L' & Hloop & HL' & Hlen).
    exists L'. cbn [main_loop]. rewrite Hstep. split_and!; [done.. |].
    change (line :: lines) with ([line] ++ lines).
    rewrite requests_app, length_app. lia.
Qed.

Lemma main_loop_next_answerable (lines : list string) (L L' : loop) :
  payload_is_object L -> main_loop lines L = Next L' -> Forall answerable lines.
Proof.
  revert L; induction lines as [|line lines IH]; intros L HL Hloop; [done |].
  destruct (answerable_dec line) as [Hline|Hline].
  - destruct (main_step_answerable line L Hline HL) as (L1 & Hstep & HL1 & _).
    cbn [main_loop] in Hloop. rewrite Hstep in Hloop.
    constructor; [done | by apply (IH L1)].
  - destruct (main_step_unanswerable line L Hline) as (v & _ & Hstep).
    cbn [main_loop] in Hloop. by rewrite Hstep in Hloop.
Qed.

(** X10: [main] reaches the end of its input exactly when every line is
    blank, malformed or a JSON object; it has then written one response
    for each line that is not blank. *)
Theorem main_ends_iff_answerable (lines : list string) (s : state) :
  ((exists L', main lines s = Next L') <-> Forall answerable lines)
  /\ (forall L', main lines s = Next L' ->
                 length (out L') = length (requests lines)).
Proof.
  unfold main. split; [split |].
  - intros [L' HL']. by apply (main_loop_next_answerable lines (Loop s None []) L').
  - intros Hall.
    destruct (main_loop_answerable lines (Loop s None []) Hall) as (L' & ? & _);
      [done | by exists L'].
  - intros L' HL'.
    assert (Hall : Forall answerable lines).
    { by apply (main_loop_next_answerable lines (Loop s None []) L'). }
    destruct (main_loop_answerable lines (Loop s None []) Hall)
      as (L1 & Hloop & _ & Hlen); [done |].
    rewrite Hloop in HL'. by injection HL' as <-.
Qed.

(** X11: [main] stops at the first line that parses to a JSON value
    other than an object: the lines before it have each been answered,
    that line gets no response, the lines after it are never read, and
    the exception that ends [main] is the [AttributeError] of
    [payload.get]. *)
Theorem main_stops_at_non_object (pre post : list string) (line : string) (s : state) :
  Forall answerable pre ->
  ~ answerable line ->
  exists v L',
    json_loads (strip line) = Return v
    /\ main (pre ++ line :: post) s = Crash (AttributeError v "get") L'
    /\ length (out L') = length (requests pre).
Proof.
  intros Hpre Hline. unfold main. rewrite main_loop_app.
  destruct (main_loop_answerable pre (Loop s None []) Hpre)
    as (L1 & -> & HL1 & Hlen); [done |].
  destruct (main_step_unanswerable line L1 Hline) as (v & Hloads & Hstep).
  exists v. eexists. split; [done |].
  cbn [main_loop]. rewrite Hstep. split; [done |]. by cbn in *.
Qed.

End Stream.

(** ** The further properties at concrete requests *)

Lemma reset_request_answered_witness :
  let line := Sample.line_reset7 +:+ Sample.nl in
  let d := [("id", PInt 7); ("action", PStr "reset")] in
  let L := Loop Sample.start None [] in
  (parses_as_request (RT := Sample.runtime) line d
   /\ dict_get_default d "action" PNone = PStr "reset")
  /\ main_step line L
     = Next (Loop (_handle_reset (PDict d) (st L)).2 (Some (PDict d))
               (out L ++ [[("reset", PBool true); ("id", PInt 7)]])).
Proof.
  intros line d L.
  assert (Hreq : parses_as_request (RT := Sample.runtime) line d).
  { split; by vm_compute. }
  split; [by split |].
  exact (reset_request_answered line d L Hreq eq_refl).
Defined.

Lemma execute_request_answered_witness :
  let line := Sample2.line_execute +:+ Sample.nl in
  let d := Sample2.payload_execute in
  let L := Loop Sample2.start None [] in
  (parses_as_request (RT := Sample2.runtime) line d
   /\ dict_get_default d "action" PNone = PStr "execute"
   /\ globals (st L) !! "execute_multi_turn_func_call" = Some Sample.engine_function)
  /\ main_step line L
     = Next (Loop (@State Sample2.runtime Sample.imported_names tt
                     [EngineCall (execute_kwargs d)])
               (Some (PDict d))
               [[("results", PList [PList []; PList []]); ("id", PInt 5)]]).
Proof.
  intros line d L.
  assert (Hreq : parses_as_request (RT := Sample2.runtime) line d).
  { split; by vm_compute. }
  assert (Hf : globals (st L) !! "execute_multi_turn_func_call"
               = Some Sample.engine_function) by by vm_compute.
  split; [by split_and! |].
  exact (execute_request_answered line d L Sample.engine_function Hreq eq_refl Hf).
Defined.

Lemma check_request_answered_witness :
  let line := Sample2.line_check +:+ Sample.nl in
  let d := Sample2.payload_check in
  let L := Loop Sample2.start None [] in
  (parses_as_request (RT := Sample2.runtime) line d
   /\ dict_get_default d "action" PNone = PStr "check"
   /\ globals (st L) !! "multi_turn_checker" = Some Sample.checker_function)
  /\ main_step line L
     = Next (Loop (@State Sample2.runtime Sample.imported_names tt
                     [CheckerCall (check_args d)])
               (Some (PDict d))
               [[("result", PDict [("valid", PBool true)]); ("id", PInt 4)]]).
Proof.
  intros line d L.
  assert (Hreq : parses_as_request (RT := Sample2.runtime) line d).
  { split; by vm_compute. }
  assert (Hf : globals (st L) !! "multi_turn_checker"
               = Some Sample.checker_function) by by vm_compute.
  split; [by split_and! |].
  exact (check_request_answered line d L Sample.checker_function Hreq eq_refl Hf).
Defined.

Lemma absent_fields_take_defaults_witness :
  let d := [("action", PStr "execute")] in
  let s := Sample.imported in
  (globals s !! "execute_multi_turn_func_call" = Some Sample.engine_function
   /\ globals s !! "multi_turn_checker" = Some Sample.checker_function)
  /\ calls (_handle_execute (PDict d) s).2
     = [EngineCall [ ("func_call_list", PList []); ("initial_config", PDict []);
                     ("involved_classes", PList []); ("model_name", PStr "model");
                     ("test_entry_id", PStr ""); ("long_context", PBool false);
                     ("is_evaL_run", PBool false) ]]
  /\ calls (_handle_check (PDict d) s).2
     = [CheckerCall [PList []; PList []; PDict []; PStr ""; PStr "model"]].
Proof.
  intros d s.
  assert (Hf : globals s !! "execute_multi_turn_func_call"
               = Some Sample.engine_function) by by vm_compute.
  assert (Hg : globals s !! "multi_turn_checker"
               = Some Sample.checker_function) by by vm_compute.
  split; [by split |].
  destruct (absent_fields_take_defaults d s _ _ Hf Hg) as (_ & He & _ & Hc & _).
  split; [exact He | exact Hc].
Defined.

Lemma malformed_line_answer_witness :
  let line := Sample.line_not_json +:+ Sample.nl in
  let d := [("id", PInt 7); ("action", PStr "reset")] in
  let L := Loop Sample.start (Some (PDict d)) [[("reset", PBool true); ("id", PInt 7)]] in
  (strip line <> ""
   /\ json_loads (Runtime := Sample.runtime) (strip line) = Raise Sample.JSONDecodeError
   /\ payload_is_object L)
  /\ main_step line L
     = Next (Loop Sample.start (Some (PDict d))
               [ [("reset", PBool true); ("id", PInt 7)];
                 [("id", PInt 7); ("error", PStr (str_exn Sample.JSONDecodeError))] ]).
Proof.
  intros line d L.
  assert (Hne : strip line <> "") by by vm_compute.
  assert (Hloads : json_loads (Runtime := Sample.runtime) (strip line)
                   = Raise Sample.JSONDecodeError) by by vm_compute.
  split; [by split_and! |].
  exact (malformed_line_answer line Sample.JSONDecodeError L Hne Hloads I).
Defined.

Lemma main_stops_at_non_object_witness :
  let pre := [Sample.line_reset7 +:+ Sample.nl; Sample.nl] in
  let line := Sample.line_five +:+ Sample.nl in
  let post := [Sample.line_unknown +:+ Sample.nl] in
  (Forall (answerable (RT := Sample.runtime)) pre
   /\ ~ answerable (RT := Sample.runtime) line)
  /\ exists v L',
       json_loads (Runtime := Sample.runtime) (strip line) = Return v
       /\ main (pre ++ line :: post) Sample.start = Crash (AttributeError v "get") L'
       /\ length (out L') = length (requests pre).
Proof.
  intros pre line post.
  assert (Hpre : Forall (answerable (RT := Sample.runtime)) pre).
  { constructor; [right; by vm_compute |].
    constructor; [left; by vm_compute |]. constructor. }
  assert (Hline : ~ answerable (RT := Sample.runtime) line).
  { intros [H|H]; by vm_compute in H. }
  split; [by split |].
  exact (main_stops_at_non_object pre post line Sample.start Hpre Hline).
Defined.

(** ** The registry, continued *)

(** X12: the two mappings list the APIs in the same order, and the module
    of an API is named after its documentation file: for the file
    [stem.json] the module is [BACKEND_PATH_PREFIX.stem].  No two APIs
    share a documentation file or a module. *)
Theorem registry_modules_follow_doc_files :
  Forall2 (fun doc_entry module_entry : string * string =>
             doc_entry.1 = module_entry.1
             /\ exists stem,
                  doc_entry.2 = stem +:+ ".json"
                  /\ module_entry.2 = BACKEND_PATH_PREFIX +:+ "." +:+ stem)
          MULTI_TURN_FUNC_DOC_FILE_MAPPING CLASS_FILE_PATH_MAPPING
  /\ NoDup MULTI_TURN_FUNC_DOC_FILE_MAPPING.*2
  /\ NoDup CLASS_FILE_PATH_MAPPING.*2.
Proof.
  split_and!.
  - unfold MULTI_TURN_FUNC_DOC_FILE_MAPPING, CLASS_FILE_PATH_MAPPING.
    repeat (apply Forall2_cons_2;
            [split; [done |];
             match goal with
             | |- exists stem, ?doc = _ /\ _ =>
                 exists (String.substring 0 (String.length doc - 5) doc)
             end; by vm_compute |]).
    apply Forall2_nil_2.
  - apply (bool_decide_unpack _). by vm_compute.
  - apply (bool_decide_unpack _). by vm_compute.
Qed.

(** ** reset and falsy fields *)

(** X13: a reset whose [model_name] or [test_entry_id] is present but
    falsy (an empty string, zero, false, null, an empty list or object)
    deletes nothing and still answers [{reset: true}], even when names
    that start with the derived prefix are bound. *)
Theorem reset_with_falsy_field_is_noop `{RT : Runtime} (d : dict) (s : state) :
  truthy (dict_get_default d "model_name" PNone) = false
  \/ truthy (dict_get_default d "test_entry_id" PNone) = false ->
  _handle_reset (PDict d) s = (Return [("reset", PBool true)], s).
Proof.
  intros Hfalsy. destruct (handle_reset_spec d s) as (g & -> & Hg).
  f_equal. apply state_eq; cbn; [|done..].
  intros k. rewrite Hg. destruct Hfalsy as [-> | ->]; cbn; [done |].
  by rewrite andb_false_r.
Qed.

Lemma reset_with_falsy_field_is_noop_witness :
  let d := [("action", PStr "reset"); ("model_name", PStr "a_b_c");
            ("test_entry_id", PStr "")] in
  let s := @State Sample.runtime {[ "a_b_c__TradingBot_instance" := "TradingBot()" ]} tt [] in
  (truthy (dict_get_default d "test_entry_id" PNone) = false
   /\ belongs_to (RT := Sample.runtime) "a_b_c__TradingBot_instance"
        (PStr "a_b_c", PStr "") = true)
  /\ _handle_reset (PDict d) s = (Return [("reset", PBool true)], s).
Proof.
  intros d s. split; [by split; vm_compute |].
  exact (reset_with_falsy_field_is_noop d s (or_intror eq_refl)).
Defined.

(** ** reset and the names the code uses *)

Lemma startswith_underscore (name a b : string) :
  startswith name (a +:+ "_" +:+ b) = true -> has_underscore name = true.
Proof.
  revert name; induction a as [|c a IH]; intros name; simpl.
  - destruct name as [|c' name]; [done |]. simpl.
    destruct (decide (c' = _)) as [->|]; [|done]. intros _.
    by rewrite bool_decide_eq_true_2.
  - destruct name as [|c' name]; [done |]. simpl.
    destruct (decide (c' = c)) as [->|]; [|done].
    intros Hrest%IH. rewrite Hrest. by rewrite orb_true_r.
Qed.

(** X16: a reset never deletes a name without the character [_]: the
    names [sys], [json] and [HANDLERS], which [main] uses on every line,
    stay bound as they were through every reset. *)
Theorem reset_keeps_names_without_underscore `{RT : Runtime}
    (d : dict) (s : state) (name : string) :
  (has_underscore name = false ->
   globals (_handle_reset (PDict d) s).2 !! name = globals s !! name)
  /\ Forall (fun used => has_underscore used = false) names_used.
Proof.
  split.
  - intros Hname. destruct (handle_reset_spec d s) as (g & -> & Hg).
    cbn [snd globals]. rewrite Hg.
    destruct (startswith name _) eqn:Hk; [|by rewrite andb_false_r].
    unfold session_prefix in Hk. apply startswith_underscore in Hk. congruence.
  - by repeat constructor.
Qed.
